(** * WinMLRunner: a shallow embedding of the binding dispatcher, the
    evaluation loops of Main.cpp and the report writers of OutputHelper.h. *)

From Stdlib Require Import List String Ascii ZArith QArith Bool Lia.
Import ListNotations.
Open Scope nat_scope.

(** ** Errors: the [hresult_error]s the tool throws or returns *)

(** HRESULT values as signed 32-bit integers. *)
Definition HRESULT := Z.
Definition S_OK : HRESULT := 0%Z.
Definition E_INVALIDARG : HRESULT := (-2147024809)%Z. (* 0x80070057 *)
Definition E_NOTIMPL : HRESULT := (-2147467263)%Z.    (* 0x80004001 *)
Definition E_FAIL : HRESULT := (-2147467259)%Z.       (* 0x80004005 *)

(** A computation that returns a value or throws an [hresult_error]. *)
Inductive result (A : Type) : Type :=
| Ok (a : A)
| Throw (code : HRESULT).
Arguments Ok {A} a.
Arguments Throw {A} code.

Definition bind_result {A B} (m : result A) (f : A -> result B) : result B :=
  match m with
  | Ok a => f a
  | Throw c => Throw c
  end.

Notation "'let!' x := m 'in' k" := (bind_result m (fun x => k))
  (at level 200, x name, m at level 100, k at level 200).

(** ** Small list and string helpers *)

(** In-place store [v[n] = x]; the dispatcher only writes in range, after
    its size check. *)
Fixpoint upd {A} (l : list A) (n : nat) (x : A) : list A :=
  match l, n with
  | [], _ => []
  | _ :: t, O => x :: t
  | h :: t, S n' => h :: upd t n' x
  end.

Definition shape_product (shape : list nat) : nat := fold_right Nat.mul 1%nat shape.

(** [std::getline(is, s, delim)] applied until it fails: an empty remainder
    ends the loop, a delimiter found ends one piece, the last piece has no
    delimiter after it (so a trailing delimiter yields no empty piece). *)
Fixpoint getline_pieces (delim : ascii) (s : string) (cur : string) : list string :=
  match s with
  | EmptyString => match cur with EmptyString => [] | _ => [cur] end
  | String c rest =>
      if Ascii.eqb c delim
      then cur :: getline_pieces delim rest EmptyString
      else getline_pieces delim rest (String.append cur (String c EmptyString))
  end.

Definition split_on (delim : ascii) (s : string) : list string :=
  getline_pieces delim s EmptyString.

(** [std::getline(fileStream, line)]: the first line of the file, or
    failure when the stream is already at its end. *)
Fixpoint first_line_aux (s : string) : string :=
  match s with
  | EmptyString => EmptyString
  | String c rest =>
      if Ascii.eqb c "010"%char then EmptyString else String c (first_line_aux rest)
  end.

Definition getline_first (content : string) : option string :=
  match content with
  | EmptyString => None
  | _ => Some (first_line_aux content)
  end.

(** [isspace] in the classic locale: space, \t, \n, \v, \f, \r. *)
Definition is_space (c : ascii) : bool :=
  let n := nat_of_ascii c in
  Nat.eqb n 32 || (Nat.leb 9 n && Nat.leb n 13).

Fixpoint skip_ws (s : string) : string :=
  match s with
  | String c rest => if is_space c then skip_ws rest else s
  | EmptyString => EmptyString
  end.

(** ** BindingUtilities: the typed-tensor dispatcher *)

Module TensorKind.
(** The [TensorKind] enum, in the order of the WinRT idl. *)
Inductive t :=
| Undefined | Float | UInt8 | Int8 | UInt16 | Int16 | Int32 | Int64
| String | Boolean | Float16 | Double | UInt32 | UInt64 | Complex64 | Complex128.
End TensorKind.

Module BindingUtilities.

(** The C++ storage type [T] of [ModelBinding<T>] chosen by each case. *)
Inductive storage :=
| st_float | st_double | st_uint8 | st_int16 | st_uint16
| st_int32 | st_uint32 | st_int64 | st_uint64.

(** The [switch (tensorDescriptor.TensorKind())] of [CreateBindableTensor]:
    the storage type of each implemented case ([Int8] binds a
    [ModelBinding<uint8_t>], [Float16] a [ModelBinding<float>]). *)
Definition storage_of (k : TensorKind.t) : option storage :=
  match k with
  | TensorKind.Float => Some st_float
  | TensorKind.Float16 => Some st_float
  | TensorKind.Double => Some st_double
  | TensorKind.Int8 => Some st_uint8
  | TensorKind.UInt8 => Some st_uint8
  | TensorKind.Int16 => Some st_int16
  | TensorKind.UInt16 => Some st_uint16
  | TensorKind.Int32 => Some st_int32
  | TensorKind.UInt32 => Some st_uint32
  | TensorKind.Int64 => Some st_int64
  | TensorKind.UInt64 => Some st_uint64
  | _ => None
  end.

(** The tensor feature descriptor of an input. *)
Record TensorFeatureDescriptor := {
  Name : string;
  Kind : TensorKind.t;
  Shape : list nat
}.

(** Modelled from the spec: [ModelBinding<T>::GetDataBufferSize] (ModelBinding.h
    is not part of the sources); the spec's BoundTensor has a buffer of total
    element count equal to the product of the shape dimensions. *)
Definition GetDataBufferSize (d : TensorFeatureDescriptor) : nat :=
  shape_product (Shape d).

(** [std::stringstream(s) >> value] for [T = uint8_t]: the character
    extractor skips leading white space, then consumes one character and
    stores its code; on an exhausted stream nothing is stored. *)
Definition extract_uint8 (s : string) : option Z :=
  match skip_ws s with
  | EmptyString => None
  | String c _ => Some (Z.of_nat (nat_of_ascii c))
  end.

Section Dispatcher.

(** The stored element values, the numeric extractor used for the
    arithmetic storage types on a stream with a character left after the
    leading white space (since C++11 it then stores a value: the parsed
    number, 0 on failure, the clamped bound on overflow) and the embedding
    of an 8-bit character code. *)
Variable V : Type.
Variable extract_num : storage -> string -> V.
Variable of_char_code : Z -> V.

(** [std::stringstream(elementString) >> value] at storage type [T];
    [None] stands for the indeterminate value of the unassigned local
    [T value;]: the sentry of the formatted extractor skips the leading
    white space and fails on an exhausted stream, and then nothing is
    stored, for the arithmetic types as for [uint8_t]. *)
Definition stream_extract (T : storage) (s : string) : option V :=
  match T with
  | st_uint8 => option_map of_char_code (extract_uint8 s)
  | _ =>
      match skip_ws s with
      | EmptyString => None
      | String _ _ => Some (extract_num T s)
      end
  end.

(** [WriteDataToBinding<T>]: the size check, then one extraction per
    element string, written in order over the whole buffer. *)
Definition WriteDataToBinding (T : storage) (elementStrings : list string)
    (bufferSize : nat) : result (list (option V)) :=
  if negb (Nat.eqb bufferSize (List.length elementStrings))
  then Throw E_INVALIDARG
  else Ok (map (stream_extract T) elementStrings).

(** The file system seen by [std::ifstream::open]: the content of a path,
    or [None] when it cannot be opened. *)
Definition FileSystem := string -> option string.

(** Modelled from the spec: [ThrowFailure] is declared in Common.h, which
    is not part of the sources; all the sources show is that it does not
    return. Following the spec, a CSV file that cannot be opened or read is
    a failed bind, which aborts the configuration (spec: [Binding] and
    [ConfigurationAbort]), so it is modelled as a thrown error. Its code is
    a stand-in: no property of this development depends on its value. *)
Definition ThrowFailure_code : HRESULT := E_FAIL.

(** [ParseCSVElementStrings] and [ReadCsvLine]: open the file, read the
    first line, split it on commas; both failures go through
    [ThrowFailure]. *)
Definition ParseCSVElementStrings (fs : FileSystem) (csvFilePath : string)
    : result (list string) :=
  match fs csvFilePath with
  | None => Throw ThrowFailure_code
  | Some content =>
      match getline_first content with
      | None => Throw ThrowFailure_code
      | Some line => Ok (split_on "," line)
      end
  end.

(** The tensor handed back by
    [TensorXxx::CreateFromArray(binding.GetShapeBuffer(), binding.GetDataBuffer())]. *)
Record Tensor := {
  tensor_kind : TensorKind.t;
  tensor_shape : list nat;
  tensor_data : list (option V)
}.

(** [CreateBindableTensor] once [description.try_as<TensorFeatureDescriptor>()]
    has succeeded (the other case is [CreateBindableTensorFromDescription]
    below): the kind dispatch; with an empty CSV path the element strings
    are [std::vector<std::string>(GetDataBufferSize())].
    Modelled from the spec: [ModelBinding<T>::GetShapeBuffer] (ModelBinding.h
    is not part of the sources) is the descriptor's declared shape, the
    spec's BoundTensor being built for the descriptor's (fully bound) shape. *)
Definition CreateBindableTensor (fs : FileSystem) (d : TensorFeatureDescriptor)
    (csvFilePath : string) : result Tensor :=
  match storage_of (Kind d) with
  | None =>
      match Kind d with
      | TensorKind.Undefined => Throw E_INVALIDARG
      | _ => Throw E_NOTIMPL
      end
  | Some T =>
      let! elementStrings :=
        (if String.eqb csvFilePath EmptyString
         then Ok (repeat EmptyString (GetDataBufferSize d))
         else ParseCSVElementStrings fs csvFilePath) in
      let! data := WriteDataToBinding T elementStrings (GetDataBufferSize d) in
      Ok {| tensor_kind := Kind d; tensor_shape := Shape d; tensor_data := data |}
  end.

(** The descriptor [CreateBindableTensor] receives, as
    [description.try_as<TensorFeatureDescriptor>()] sees it. *)
Inductive InputDescriptor :=
| TensorInput (d : TensorFeatureDescriptor)
| NonTensorInput (name : string).

(** [CreateBindableTensor] on any descriptor: for a non-tensor one it
    prints its message and evaluates [throw;] while no exception is being
    handled, which calls [std::terminate] ([None]). *)
Definition CreateBindableTensorFromDescription (fs : FileSystem) (desc : InputDescriptor)
    (csvFilePath : string) : option (result Tensor) :=
  match desc with
  | NonTensorInput _ => None
  | TensorInput d => Some (CreateBindableTensor fs d csvFilePath)
  end.

End Dispatcher.

End BindingUtilities.

(** ** BindingUtilities: tensors from decoded images *)

Module ImagePreprocess.

Section PreProcess.

(** The C++ [float] type with the operations [PreProcessImageToBinding]
    uses: the conversion of a pixel byte, subtraction, division and [!=];
    [narrow] is the conversion to the storage type [T] on store. *)
Variable R : Type.
Variable of_byte : Z -> R.
Variables fsub fdiv : R -> R -> R.
Variable fneq : R -> R -> bool.
Variables fzero fone : R.
Variable E : Type.
Variable narrow : R -> E.

(** [meanStdDev[c]] of the [std::array<float, 3>]. *)
Definition mean_at (meanStdDev : R * R * R) (c : nat) : R :=
  match meanStdDev, c with
  | (m0, _, _), O => m0
  | (_, m1, _), 1%nat => m1
  | (_, _, m2), _ => m2
  end.

(** The value stored for pixel [i], channel [c]:
    [(sbBufferData[4*i + c] - meanStdDev[c]) / scale], narrowed on store. *)
Definition pixel_value (sbBuffer : list Z) (scale : R) (meanStdDev : R * R * R)
    (i c : nat) : E :=
  narrow (fdiv (fsub (of_byte (nth (4 * i + c) sbBuffer 0%Z)) (mean_at meanStdDev c)) scale).

(** One pass of the loop body: the three planar stores of pixel [i]. *)
Definition roll_pixel (hw : nat) (sbBuffer : list Z) (scale : R)
    (meanStdDev : R * R * R) (i : nat) (bindingData : list E) : list E :=
  let d0 := upd bindingData i (pixel_value sbBuffer scale meanStdDev i 0) in
  let d1 := upd d0 (i + hw) (pixel_value sbBuffer scale meanStdDev i 1) in
  upd d1 (i + hw * 2) (pixel_value sbBuffer scale meanStdDev i 2).

(** [for (int i = 0, count = 0; i < imgHeight * imgWidth; ++i, count += 4)],
    run for [n] more pixels starting at pixel [i]. *)
Fixpoint roll (hw : nat) (sbBuffer : list Z) (scale : R) (meanStdDev : R * R * R)
    (n i : nat) (bindingData : list E) : list E :=
  match n with
  | O => bindingData
  | S n' => roll hw sbBuffer scale meanStdDev n' (S i)
              (roll_pixel hw sbBuffer scale meanStdDev i bindingData)
  end.

(** The guard [scale != 1.0f && (meanStdDev[0] != 0 || meanStdDev[1] != 0
    || meanStdDev[2] != 0)]. *)
Definition normalise_guard (scale : R) (meanStdDev : R * R * R) : bool :=
  fneq scale fone &&
  (fneq (mean_at meanStdDev 0) fzero || fneq (mean_at meanStdDev 1) fzero
   || fneq (mean_at meanStdDev 2) fzero).

(** [PreProcessImageToBinding<T>]: the shape check, then the de-interleave
    guarded by [scale != 1.0f && (meanStdDev[0] != 0 || ...)]; [sbBuffer]
    is the BGRA8/RGBA8 buffer the bitmap is copied into, [bindingData] the
    binding's buffer before the call. *)
Definition PreProcessImageToBinding (imgHeight imgWidth : nat) (sbBuffer : list Z)
    (bindingData : list E) (scale : R) (meanStdDev : R * R * R) : result (list E) :=
  let resultSize := imgHeight * imgWidth * 3 in
  if negb (Nat.eqb (List.length bindingData) resultSize)
  then Throw E_INVALIDARG
  else if normalise_guard scale meanStdDev
  then Ok (roll (imgHeight * imgWidth) sbBuffer scale meanStdDev
              (imgHeight * imgWidth) 0 bindingData)
  else Ok bindingData.

End PreProcess.

End ImagePreprocess.

(** ** Main.cpp: the evaluation of one model and of a directory of models *)

Module Runner.

Inductive LearningModelDeviceKind :=
| Cpu | DirectX | DirectXHighPerformance | DirectXMinPower.

(** The fields of [CommandLineArgs] read by Main.cpp; [m_useCPUandGPU] and
    [m_deviceKind] are the values of the accessors [UseCPUandGPU()] and
    [DeviceKind()]. *)
Record CommandLineArgs := {
  m_perfCapture : bool;
  m_useCPU : bool;
  m_useGPU : bool;
  m_useGPUHighPerformance : bool;
  m_useGPUMinPower : bool;
  m_useCPUandGPU : bool;
  m_deviceKind : LearningModelDeviceKind;
  m_imagePath : string;
  m_csvData : string;
  m_modelPath : string;
  m_numIterations : nat
}.

Definition UseCPU (a : CommandLineArgs) : bool :=
  m_useCPU a || (negb (m_useGPU a) && negb (m_useGPUHighPerformance a)
                 && negb (m_useGPUMinPower a)).

Definition UseGPU (a : CommandLineArgs) : bool :=
  m_useGPU a || (negb (m_useCPU a) && negb (m_useGPUHighPerformance a)
                 && negb (m_useGPUMinPower a)).

Definition SetModelPath (a : CommandLineArgs) (path : string) : CommandLineArgs :=
  {| m_perfCapture := m_perfCapture a; m_useCPU := m_useCPU a; m_useGPU := m_useGPU a;
     m_useGPUHighPerformance := m_useGPUHighPerformance a;
     m_useGPUMinPower := m_useGPUMinPower a; m_useCPUandGPU := m_useCPUandGPU a;
     m_deviceKind := m_deviceKind a; m_imagePath := m_imagePath a;
     m_csvData := m_csvData a; m_modelPath := path;
     m_numIterations := m_numIterations a |}.

(** Which of the three binding calls [EvaluateModel] makes. *)
Inductive InputSource := ImageInput | CsvInput | GarbageInput.

Definition input_source (a : CommandLineArgs) : InputSource :=
  if negb (String.eqb (m_imagePath a) EmptyString) then ImageInput
  else if negb (String.eqb (m_csvData a) EmptyString) then CsvInput
  else GarbageInput.

(** The WinML platform as seen by Main.cpp: each call returns or throws an
    [hresult_error]; [Evaluate m d i] is the [i]-th [session.Evaluate] of a
    configuration, [EvalTime] the wall-clock reading around it. *)
Record Runtime := {
  LoadFromFilePath : string -> result string;
  CreateSession : string -> LearningModelDeviceKind -> result unit;
  BindToContext : string -> LearningModelDeviceKind -> InputSource -> result unit;
  Evaluate : string -> LearningModelDeviceKind -> nat -> result unit;
  EvalTime : string -> LearningModelDeviceKind -> nat -> Z
}.

(** The observable effects of a run: console lines, the [session.Evaluate]
    calls made, [output->m_clockEvalTimes] and the models whose summary row
    [WritePerformanceDataToCSV] appended. *)
Record RunState := {
  console : list string;
  evaluations : list (string * LearningModelDeviceKind * nat);
  clockEvalTimes : list Z;
  summary_rows : list string
}.

Definition log (st : RunState) (line : string) : RunState :=
  {| console := console st ++ [line]; evaluations := evaluations st;
     clockEvalTimes := clockEvalTimes st; summary_rows := summary_rows st |}.

Definition record_eval (st : RunState) (e : string * LearningModelDeviceKind * nat)
    : RunState :=
  {| console := console st; evaluations := evaluations st ++ [e];
     clockEvalTimes := clockEvalTimes st; summary_rows := summary_rows st |}.

Definition push_eval_time (st : RunState) (t : Z) : RunState :=
  {| console := console st; evaluations := evaluations st;
     clockEvalTimes := clockEvalTimes st ++ [t]; summary_rows := summary_rows st |}.

Definition write_summary_row (st : RunState) (model : string) : RunState :=
  {| console := console st; evaluations := evaluations st;
     clockEvalTimes := clockEvalTimes st; summary_rows := summary_rows st ++ [model] |}.

(** [output->Reset()]: the per-model timings are cleared. *)
Definition reset_output (st : RunState) : RunState :=
  {| console := console st; evaluations := evaluations st;
     clockEvalTimes := []; summary_rows := summary_rows st |}.

Section Main.

Variable rt : Runtime.

(** The perf-capture loop [for (UINT i = 0; i < args.NumIterations(); i++)]
    of [EvaluateModel], [fuel] iterations left at iteration [i]: a throwing
    [Evaluate] prints [FAILED] and returns its code from [EvaluateModel]. *)
Fixpoint eval_iterations (m : string) (d : LearningModelDeviceKind) (fuel i : nat)
    (st : RunState) : option HRESULT * RunState :=
  match fuel with
  | O => (None, st)
  | S f =>
      let st1 := record_eval st (m, d, i) in
      match Evaluate rt m d i with
      | Throw c => (Some c, log st1 "[FAILED]")
      | Ok _ => eval_iterations m d f (S i) (push_eval_time st1 (EvalTime rt m d i))
      end
  end.

(** [EvaluateModel(model, args, output, deviceKind)]: its calls and their
    failures. Not modelled here: the console lines of the successful steps,
    the timing prints and [g_Profiler.Reset()] after a performance capture,
    and the closing [PrintEvaluationResults] call, made when an image or CSV
    path is given (it is modelled in [EvaluationRun]). *)
Definition EvaluateModel (model : option string) (args : CommandLineArgs)
    (deviceKind : LearningModelDeviceKind) (st : RunState) : HRESULT * RunState :=
  match model with
  | None => (E_INVALIDARG, st)
  | Some m =>
      match CreateSession rt m deviceKind with
      | Throw c => (c, log st "Creating session [FAILED]")
      | Ok _ =>
          match BindToContext rt m deviceKind (input_source args) with
          | Throw c => (c, log st "[FAILED] Could Not Bind To Context")
          | Ok _ =>
              if m_perfCapture args then
                match eval_iterations m deviceKind (m_numIterations args) 0 st with
                | (Some c, st') => (c, st')
                | (None, st') => (S_OK, st')
                end
              else
                let st1 := record_eval st (m, deviceKind, 0) in
                match Evaluate rt m deviceKind 0 with
                | Throw c => (c, log st1 "[FAILED]")
                | Ok _ => (S_OK, log st1 "[SUCCESS]")
                end
          end
      end
  end.

(** [LoadModelHelper]: a failed load is reported and rethrown. *)
Definition LoadModelHelper (args : CommandLineArgs) (st : RunState)
    : result string * RunState :=
  match LoadFromFilePath rt (m_modelPath args) with
  | Throw c => (Throw c, log st "Load Model: [FAILED]")
  | Ok m => (Ok m, log st "Loading model...[SUCCESS]")
  end.

(** [path.find(".onnx") != npos || path.find(".pb") != npos]. *)
Definition contains (pat s : string) : bool :=
  match String.index 0 pat s with Some _ => true | None => false end.

Definition is_model_file (path : string) : bool :=
  contains ".onnx" path || contains ".pb" path.

(** The body of the directory loop for one model file: load, evaluate on
    the CPU and then on the GPU as selected, then the summary row; [Some h]
    is a [return h;] out of [EvaluateModelsInDirectory]. *)
Definition process_model (args : CommandLineArgs) (path : string) (st : RunState)
    : option HRESULT * RunState :=
  match LoadModelHelper args st with
  | (Throw c, st1) => (Some c, log st1 "hr.message()")
  | (Ok m, st1) =>
      let '(h1, st2) :=
        if m_useCPUandGPU args || UseCPU args
        then EvaluateModel (Some m) args Cpu st1 else (S_OK, st1) in
      if negb (Z.eqb h1 S_OK) then (Some h1, st2) else
      let '(h2, st3) :=
        if m_useCPUandGPU args || UseGPU args
        then EvaluateModel (Some m) args (m_deviceKind args) st2 else (S_OK, st2) in
      if negb (Z.eqb h2 S_OK) then (Some h2, st3) else
      (None, reset_output (write_summary_row st3 path))
  end.

(** [EvaluateModelsInDirectory]: the directory entries in iteration order;
    [args] is updated in place by [SetModelPath]. *)
Fixpoint EvaluateModelsInDirectory (args : CommandLineArgs) (entries : list string)
    (st : RunState) : HRESULT * CommandLineArgs * RunState :=
  match entries with
  | [] => (S_OK, args, st)
  | path :: rest =>
      if is_model_file path then
        let args' := SetModelPath args path in
        match process_model args' path st with
        | (None, st') => EvaluateModelsInDirectory args' rest st'
        | (Some h, st') => (h, args', st')
        end
      else EvaluateModelsInDirectory args rest st
  end.

End Main.

End Runner.

(** ** The iteration time budget *)

Module TimeBudget.

(** The iteration settings of [CommandLineArgs] (src/CommandLineArgs.h). *)
Record IterationArgs := {
  m_numIterations : nat;
  m_timeLimitIterations : bool;
  m_iterationTimeLimitMilliseconds : Q
}.

Definition default_args : IterationArgs :=
  {| m_numIterations := 1; m_timeLimitIterations := false;
     m_iterationTimeLimitMilliseconds := 0%Q |}.

Definition NumIterations (a : IterationArgs) : nat := m_numIterations a.
Definition IsTimeLimitIterations (a : IterationArgs) : bool := m_timeLimitIterations a.
Definition IterationTimeLimit (a : IterationArgs) : Q := m_iterationTimeLimitMilliseconds a.

Definition SetRunIterations (a : IterationArgs) (iterations : nat) : IterationArgs :=
  {| m_numIterations := iterations; m_timeLimitIterations := m_timeLimitIterations a;
     m_iterationTimeLimitMilliseconds := m_iterationTimeLimitMilliseconds a |}.

(** [SetIterationTimeLimit]: "Stop iterating when total time of iterations
    after the first iteration exceeds time limit." *)
Definition SetIterationTimeLimit (a : IterationArgs) (milliseconds : Q) : IterationArgs :=
  {| m_numIterations := m_numIterations a; m_timeLimitIterations := true;
     m_iterationTimeLimitMilliseconds := milliseconds |}.

(** Total time of the iterations after the first once [n] iterations have
    completed, [cost i] being the elapsed time of iteration [i]. *)
Fixpoint time_after_first (cost : nat -> Q) (n : nat) : Q :=
  match n with
  | O => 0%Q
  | S m => if Nat.eqb m 0 then time_after_first cost m
           else (time_after_first cost m + cost m)%Q
  end.

(** Modelled from the spec: the evaluation loop that consumes
    [IsTimeLimitIterations] and [IterationTimeLimit] (the loop that reads
    them is not part of the sources). Up to [N] iterations run; after each
    one the time of the iterations after the first is accumulated and, with
    a budget configured, the loop stops once that total exceeds it. The
    result is the number of completed iterations. *)
Fixpoint run_iterations (a : IterationArgs) (cost : nat -> Q) (fuel i : nat)
    (totalTime : Q) : nat :=
  match fuel with
  | O => i
  | S f =>
      let total := if Nat.eqb i 0 then totalTime else (totalTime + cost i)%Q in
      if IsTimeLimitIterations a && negb (Qle_bool total (IterationTimeLimit a))
      then S i
      else run_iterations a cost f (S i) total
  end.

Definition completed_iterations (a : IterationArgs) (cost : nat -> Q) : nat :=
  run_iterations a cost (NumIterations a) 0 0%Q.

(** Modelled from the spec: the iteration count reported for statistics is
    the number of iterations actually completed. *)
Definition reported_iterations (a : IterationArgs) (cost : nat -> Q) : nat :=
  completed_iterations a cost.

End TimeBudget.

(** ** OutputHelper.h: the profiler averages and the reports *)

Module Output.

(** IEEE doubles as far as the reports see them: finite values, infinities
    (with their sign) and NaN. *)
Inductive double := Finite (q : Q) | Inf (negative : bool) | NaN.

Definition isnan (d : double) : bool := match d with NaN => true | _ => false end.

Definition dadd (x y : double) : double :=
  match x, y with
  | NaN, _ | _, NaN => NaN
  | Inf s1, Inf s2 => if Bool.eqb s1 s2 then Inf s1 else NaN
  | Inf s, Finite _ | Finite _, Inf s => Inf s
  | Finite a, Finite b => Finite (a + b)%Q
  end.

Definition dsign (q : Q) : bool := negb (Qle_bool 0%Q q).

Definition ddiv (x y : double) : double :=
  match x, y with
  | NaN, _ | _, NaN => NaN
  | Inf _, Inf _ => NaN
  | Finite _, Inf _ => Finite 0%Q
  | Inf s, Finite b => Inf (xorb s (dsign b))
  | Finite a, Finite b =>
      if Qeq_bool b 0%Q then (if Qeq_bool a 0%Q then NaN else Inf (dsign a))
      else Finite (a / b)%Q
  end.

(** [std::accumulate(v.begin(), v.end(), 0.0)]. *)
Definition accumulate (l : list double) : double := fold_left dadd l (Finite 0%Q).

Definition of_nat (n : nat) : double := Finite (inject_Z (Z.of_nat n)).

(** The profiler slots [WINML_MODEL_TEST_PERF] and the counter kinds. *)
Inductive Slot := LOAD_MODEL | BIND_VALUE | EVAL_MODEL.
Inductive CounterType := TIMER | WORKING_SET_USAGE | GPU_SHARED_MEM_USAGE | GPU_DEDICATED_MEM_USAGE.

(** The samples recorded in each slot for each counter kind. *)
Record Profiler := { samples : Slot -> CounterType -> list Q }.

Definition empty_profiler : Profiler := {| samples := fun _ _ => [] |}.

Definition sumQ (l : list Q) : Q := fold_right Qplus 0%Q l.

(** Modelled from the spec: [profiler[slot].GetAverage(counter)] (TimerHelper.h
    is not part of the sources); the arithmetic mean of the recorded samples,
    the not-available sentinel (NaN, which [isnan] detects) when the slot
    has no sample. *)
Definition GetAverage (p : Profiler) (s : Slot) (ct : CounterType) : double :=
  match samples p s ct with
  | [] => NaN
  | l => Finite (sumQ l / inject_Z (Z.of_nat (List.length l)))%Q
  end.

(** The text the streams produce: [fout << double], [std::to_string(double)],
    [fout << integer]. *)
Record NumPut := {
  put_double : double -> string;
  to_string_double : double -> string;
  put_int : Z -> string
}.

(** The state of an [OutputHelper] the reports read. *)
Record OutputHelper := {
  m_silent : bool;
  m_csvFileName : string;
  m_csvFileNamePerIteration : string;
  m_csvResult : string;
  fileNameIter : string;
  fileNameRes : string;
  m_clockLoadTime : double;
  m_clockLoadTimes : list double;
  m_clockBindTimes : list double;
  m_clockEvalTimes : list double;
  m_CPUWorkingDiff : list double;
  m_CPUWorkingStart : list double;
  m_GPUSharedDiff : list double;
  m_GPUSharedStart : list double;
  m_GPUDedicatedDiff : list double;
  m_Result : list string;
  m_Hash : list Z
}.


(** [m_clockLoadTimes.resize(n, 0.0)]. *)
Definition resize (l : list double) (n : nat) : list double :=
  firstn n l ++ repeat (Finite 0%Q) (n - List.length l).

Definition with_clockLoadTimes (h : OutputHelper) (l : list double) : OutputHelper :=
  {| m_silent := m_silent h; m_csvFileName := m_csvFileName h;
     m_csvFileNamePerIteration := m_csvFileNamePerIteration h;
     m_csvResult := m_csvResult h; fileNameIter := fileNameIter h;
     fileNameRes := fileNameRes h; m_clockLoadTime := m_clockLoadTime h;
     m_clockLoadTimes := l; m_clockBindTimes := m_clockBindTimes h;
     m_clockEvalTimes := m_clockEvalTimes h; m_CPUWorkingDiff := m_CPUWorkingDiff h;
     m_CPUWorkingStart := m_CPUWorkingStart h; m_GPUSharedDiff := m_GPUSharedDiff h;
     m_GPUSharedStart := m_GPUSharedStart h; m_GPUDedicatedDiff := m_GPUDedicatedDiff h;
     m_Result := m_Result h; m_Hash := m_Hash h |}.

(** The files on disk, line by line; [None] for a file that does not exist. *)
Definition Files := string -> option (list string).

(** The header check of every writer: [fin.rdbuf()->sbumpc()] is [EOF]
    exactly when the file is missing or empty. *)
Definition is_new_file (fs : Files) (name : string) : bool :=
  match fs name with
  | None | Some [] => true
  | Some _ => false
  end.

(** [fout.open(name, std::ios_base::app)] followed by the given lines. *)
Definition append_lines (fs : Files) (name : string) (lines : list string) : Files :=
  fun n => if String.eqb n name
           then Some (match fs name with None => [] | Some l => l end ++ lines)
           else fs n.

Definition join (cells : list string) : string := String.concat "," cells.

(** [if (bNewFile) { fout << header; } fout << rows;]. *)
Definition header_then (bNewFile : bool) (header : string) (rows : list string)
    : list string :=
  (if bNewFile then [header] else []) ++ rows.

Section Reports.

Variable np : NumPut.

Local Open Scope string_scope.

Definition summary_header : string :=
  join ["Model Name"; "Model Binding"; "Input Binding"; "Input Type";
        "Device Creation Location"; "Iterations"; "First Run Ignored"; "Load (ms)";
        "Bind (ms)"; "Evaluate (ms)"; "Total Time (ms)";
        "Working Set Memory usage (evaluate) (MB)";
        "GPU Dedicated memory usage (evaluate) (MB)";
        "GPU Shared memory usage (evaluate) (MB)"; "Wall-clock Load (ms)";
        "Wall-clock Bind (ms)"; "Wall-clock Evaluate (ms)";
        "Wall-clock total time (ms)"; "PerIterationFile"; "ResultFile"].

(** The cells of the data row of [WritePerformanceDataToCSV]. *)
Definition summary_cells (h : OutputHelper) (profiler : Profiler) (numIterations : Z)
    (modelName modelBinding inputBinding inputType deviceCreationLocation : string)
    (firstRunIgnored : bool) : list string :=
  let loadTime := GetAverage profiler LOAD_MODEL TIMER in
  let bindTime := GetAverage profiler BIND_VALUE TIMER in
  let evalTime := GetAverage profiler EVAL_MODEL TIMER in
  let evalMemoryUsage := GetAverage profiler EVAL_MODEL WORKING_SET_USAGE in
  let gpuEvalSharedMemoryUsage := GetAverage profiler EVAL_MODEL GPU_SHARED_MEM_USAGE in
  let gpuEvalDedicatedMemoryUsage := GetAverage profiler EVAL_MODEL GPU_DEDICATED_MEM_USAGE in
  let clockBindTime := ddiv (accumulate (m_clockBindTimes h)) (Finite (inject_Z numIterations)) in
  let clockEvalTime := ddiv (accumulate (m_clockEvalTimes h)) (Finite (inject_Z numIterations)) in
  let totalTime := dadd (dadd (if isnan loadTime then Finite 0%Q else loadTime) bindTime) evalTime in
  [modelName; modelBinding; inputBinding; inputType; deviceCreationLocation;
   put_int np numIterations; (if firstRunIgnored then "1" else "0");
   (if isnan loadTime then "N/A" else to_string_double np loadTime);
   put_double np bindTime; put_double np evalTime; put_double np totalTime;
   put_double np evalMemoryUsage; put_double np gpuEvalDedicatedMemoryUsage;
   put_double np gpuEvalSharedMemoryUsage; put_double np (m_clockLoadTime h);
   put_double np clockBindTime; put_double np clockEvalTime;
   put_double np (dadd (dadd (m_clockLoadTime h) clockBindTime) clockEvalTime);
   fileNameIter h; fileNameRes h].

(** [WritePerformanceDataToCSV]: with a file name set, the header when the
    file is new, then the data row. *)
Definition WritePerformanceDataToCSV (h : OutputHelper) (profiler : Profiler)
    (numIterations : Z) (modelName modelBinding inputBinding inputType
    deviceCreationLocation : string) (firstRunIgnored : bool) (fs : Files) : Files :=
  if String.eqb (m_csvFileName h) EmptyString then fs
  else
    let bNewFile := is_new_file fs (m_csvFileName h) in
    append_lines fs (m_csvFileName h)
      (header_then bNewFile summary_header
         [join (summary_cells h profiler numIterations modelName modelBinding
                  inputBinding inputType deviceCreationLocation firstRunIgnored)]).

(** [WriteTensorResultToCSV<T>]: header [IterationNumber ,Result[0],...,]
    when new, then the iteration number and every value, each followed by a
    comma. *)
Definition WriteTensorResultToCSV (h : OutputHelper) (res : list double) (IterNo : Z)
    (fs : Files) : Files :=
  if Nat.eqb (String.length (m_csvResult h)) 0 then fs
  else
    let header := String.concat ""
      ("IterationNumber ," :: map (fun i => "Result[" ++ put_int np (Z.of_nat i) ++ "],")%string
                                 (seq 0 (List.length res))) in
    let row := String.concat ""
      ((put_int np IterNo ++ ",")%string :: map (fun v => put_double np v ++ ",")%string res) in
    append_lines fs (m_csvResult h)
      (header_then (is_new_file fs (m_csvResult h)) header [row]).



Definition per_iteration_header : string :=
  join ["Model Name"; "Image Name"; "Iterations"; "Iteration Number "; "Result"; "Hash";
        "CPU Working Set Diff"; "CPU Working Set Start (MB)"; "GPU Shared Memory Diff (MB)";
        "GPU Shared Memory Start (MB)"; "GPU Dedicated Memory Diff (MB)"; "Load (ms)";
        "Bind (ms)"; "Evaluate (ms)"; ""].

Definition per_iteration_row (h : OutputHelper) (numIterations : nat)
    (modelName imgName : string) (i : nat) : string :=
  let dget l := put_double np (nth i l (Finite 0%Q)) in
  join [modelName; imgName; put_int np (Z.of_nat numIterations); put_int np (Z.of_nat (S i));
        nth i (m_Result h) ""; put_int np (nth i (m_Hash h) 0%Z);
        dget (m_CPUWorkingDiff h); dget (m_CPUWorkingStart h); dget (m_GPUSharedDiff h);
        dget (m_GPUSharedStart h); dget (m_GPUDedicatedDiff h); dget (m_clockLoadTimes h);
        dget (m_clockBindTimes h); dget (m_clockEvalTimes h)].

(** The sizes of the vectors the row loop of
    [WritePerformanceDataToCSVPerIteration] indexes with [operator[]],
    other than [m_clockLoadTimes], which it has just resized. *)
Definition per_iteration_lengths (h : OutputHelper) : list nat :=
  [List.length (m_Result h); List.length (m_Hash h); List.length (m_CPUWorkingDiff h);
   List.length (m_CPUWorkingStart h); List.length (m_GPUSharedDiff h);
   List.length (m_GPUSharedStart h); List.length (m_GPUDedicatedDiff h);
   List.length (m_clockBindTimes h); List.length (m_clockEvalTimes h)].

(** [WritePerformanceDataToCSVPerIteration]: it resizes [m_clockLoadTimes]
    to the iteration count before the rows are written, so it also returns
    the updated helper. The loop reads index [i] of every vector for
    [i < NumIterations()]; when one of them is shorter, [operator[]] past
    its end is undefined behaviour ([None]), so [per_iteration_row] is only
    evaluated in range, where its [nth] defaults are never used. *)
Definition WritePerformanceDataToCSVPerIteration (h : OutputHelper) (numIterations : nat)
    (modelName imgName : string) (fs : Files) : option (OutputHelper * Files) :=
  if Nat.eqb (String.length (m_csvFileNamePerIteration h)) 0 then Some (h, fs)
  else
    let bNewFile := is_new_file fs (m_csvFileNamePerIteration h) in
    let h' := with_clockLoadTimes h (resize (m_clockLoadTimes h) numIterations) in
    if forallb (fun len => Nat.leb numIterations len) (per_iteration_lengths h')
    then Some (h', append_lines fs (m_csvFileNamePerIteration h)
                     (header_then bNewFile per_iteration_header
                        (map (per_iteration_row h' numIterations modelName imgName)
                             (seq 0 numIterations))))
    else None.

(** The console part of [PrintResults]: nothing when silent; otherwise the
    [Load] to [Wall-Clock Evaluate] lines. The blank line and the [Results]
    header before them, the [Total Wall-Clock Time] and memory lines and the
    blank lines after them are not modelled. *)
Definition PrintResults (h : OutputHelper) (profiler : Profiler) (numIterations : nat)
    : list string :=
  let loadTime := GetAverage profiler LOAD_MODEL TIMER in
  let bindTime := GetAverage profiler BIND_VALUE TIMER in
  let evalTime := GetAverage profiler EVAL_MODEL TIMER in
  let clockBindTime := ddiv (accumulate (m_clockBindTimes h)) (of_nat numIterations) in
  let clockEvalTime := ddiv (accumulate (m_clockEvalTimes h)) (of_nat numIterations) in
  let totalTime := dadd (dadd (if isnan loadTime then Finite 0%Q else loadTime) bindTime) evalTime in
  if m_silent h then []
  else
    [("  Load: " ++ (if isnan loadTime then "N/A" else to_string_double np loadTime ++ " ms"))%string;
     ("  Bind: " ++ put_double np bindTime ++ " ms")%string;
     ("  Evaluate: " ++ put_double np evalTime ++ " ms")%string;
     ("  Total Time: " ++ put_double np totalTime ++ " ms")%string;
     ("  Wall-Clock Load: " ++ put_double np (m_clockLoadTime h) ++ " ms")%string;
     ("  Wall-Clock Bind: " ++ put_double np clockBindTime ++ " ms")%string;
     ("  Wall-Clock Evaluate: " ++ put_double np clockEvalTime ++ " ms")%string].

End Reports.

End Output.

(** ** Test inputs *)

Module Fixtures.
Import BindingUtilities.

(** A CSV file of one row [1, 2] (the second cell has a leading space). *)
Definition csv_fs : FileSystem :=
  fun p => if String.eqb p "input.csv" then Some "1, 2
3,4
"%string else None.

Definition u8_descriptor : TensorFeatureDescriptor :=
  {| Name := "input"; Kind := TensorKind.UInt8; Shape := [1; 2] |}.

Definition float_descriptor : TensorFeatureDescriptor :=
  {| Name := "input"; Kind := TensorKind.Float; Shape := [1; 2] |}.

(** A numeric extractor for the arithmetic storage types (its values do not
    matter to the size checks). *)
Definition zero_extract (_ : storage) (_ : string) : Z := 0%Z.

(** The C++ [float] operations instantiated with exact rationals, [!=] as
    rational inequality; enough to run the guard on concrete inputs. *)
Definition q_neq (a b : Q) : bool := negb (Qeq_bool a b).

(** A platform on which [a.onnx] fails to load and every other call
    succeeds. *)
Definition rt_bad_first_model : Runner.Runtime :=
  {| Runner.LoadFromFilePath := fun p =>
       if String.eqb p "a.onnx" then Throw E_FAIL else Ok p;
     Runner.CreateSession := fun _ _ => Ok tt;
     Runner.BindToContext := fun _ _ _ => Ok tt;
     Runner.Evaluate := fun _ _ _ => Ok tt;
     Runner.EvalTime := fun _ _ _ => 5%Z |}.

(** A platform on which the first [Evaluate] of every configuration throws. *)
Definition rt_first_eval_fails : Runner.Runtime :=
  {| Runner.LoadFromFilePath := fun p => Ok p;
     Runner.CreateSession := fun _ _ => Ok tt;
     Runner.BindToContext := fun _ _ _ => Ok tt;
     Runner.Evaluate := fun _ _ i => if Nat.eqb i 0 then Throw E_FAIL else Ok tt;
     Runner.EvalTime := fun _ _ _ => 5%Z |}.

(** CPU only, performance capture on, 3 iterations, synthetic input. *)
Definition cpu_perf_args : Runner.CommandLineArgs :=
  {| Runner.m_perfCapture := true; Runner.m_useCPU := true; Runner.m_useGPU := false;
     Runner.m_useGPUHighPerformance := false; Runner.m_useGPUMinPower := false;
     Runner.m_useCPUandGPU := false; Runner.m_deviceKind := Runner.DirectX;
     Runner.m_imagePath := ""; Runner.m_csvData := ""; Runner.m_modelPath := "";
     Runner.m_numIterations := 3 |}.

Definition empty_run : Runner.RunState :=
  {| Runner.console := []; Runner.evaluations := []; Runner.clockEvalTimes := [];
     Runner.summary_rows := [] |}.

End Fixtures.

(** ** Runs of the directory loop *)

Module Traces.
Import Runner.

(** [Some (args, st)] when the directory loop gets through all [entries]
    without returning: every model file among them is loaded, evaluated
    and written. *)
Fixpoint dir_completes (rt : Runtime) (args : CommandLineArgs) (entries : list string)
    (st : RunState) : option (CommandLineArgs * RunState) :=
  match entries with
  | [] => Some (args, st)
  | path :: rest =>
      if is_model_file path then
        let args' := SetModelPath args path in
        match process_model rt args' path st with
        | (None, st') => dir_completes rt args' rest st'
        | (Some _, _) => None
        end
      else dir_completes rt args rest st
  end.

End Traces.

(** ** Successive summary writes to one file *)

Module SummaryRuns.
Import Output.

(** One call of [WritePerformanceDataToCSV], by whichever process makes it:
    its helper, profiler and row arguments. *)
Record SummaryWrite := {
  sw_helper : OutputHelper;
  sw_profiler : Profiler;
  sw_iterations : Z;
  sw_model : string;
  sw_modelBinding : string;
  sw_inputBinding : string;
  sw_inputType : string;
  sw_deviceCreationLocation : string;
  sw_firstRunIgnored : bool
}.

Definition perform (np : NumPut) (w : SummaryWrite) (fs : Files) : Files :=
  WritePerformanceDataToCSV np (sw_helper w) (sw_profiler w) (sw_iterations w) (sw_model w)
    (sw_modelBinding w) (sw_inputBinding w) (sw_inputType w)
    (sw_deviceCreationLocation w) (sw_firstRunIgnored w) fs.

Definition data_row (np : NumPut) (w : SummaryWrite) : string :=
  join (summary_cells np (sw_helper w) (sw_profiler w) (sw_iterations w) (sw_model w)
          (sw_modelBinding w) (sw_inputBinding w) (sw_inputType w)
          (sw_deviceCreationLocation w) (sw_firstRunIgnored w)).

(** The writes of successive processes, in order; the file system is all
    that survives from one process to the next. *)
Definition append_summaries (np : NumPut) (runs : list (list SummaryWrite)) (fs : Files)
    : Files :=
  fold_left (fun acc w => perform np w acc) (List.concat runs) fs.

End SummaryRuns.

(** ** Report test inputs *)

Module ReportFixtures.
Import Output SummaryRuns.

(** Decimal digits of a natural number. *)
Fixpoint nat_digits (fuel n : nat) (acc : string) : string :=
  match fuel with
  | O => acc
  | S f =>
      let acc' := String (ascii_of_nat (48 + n mod 10)) acc in
      if Nat.ltb n 10 then acc' else nat_digits f (n / 10) acc'
  end.

Definition show_nat (n : nat) : string := nat_digits (S n) n EmptyString.

Definition show_Z (z : Z) : string :=
  if Z.ltb z 0 then String "-" (show_nat (Z.to_nat (Z.opp z))) else show_nat (Z.to_nat z).

(** A test printer: finite values as exact fractions, NaN as the C runtime
    prints it. *)
Definition show_double (d : double) : string :=
  match d with
  | Finite q =>
      if Pos.eqb (Qden q) 1 then show_Z (Qnum q)
      else String.append (show_Z (Qnum q)) (String "/" (show_nat (Pos.to_nat (Qden q))))
  | Inf false => "inf"
  | Inf true => "-inf"
  | NaN => "nan"
  end.

Definition test_put : NumPut :=
  {| put_double := show_double; to_string_double := show_double; put_int := show_Z |}.

Definition base_helper : OutputHelper :=
  {| m_silent := false; m_csvFileName := "perf.csv"; m_csvFileNamePerIteration := "iter.csv";
     m_csvResult := "result.csv"; fileNameIter := "iter.csv"; fileNameRes := "result.csv";
     m_clockLoadTime := Finite 3; m_clockLoadTimes := []; m_clockBindTimes := [Finite 2];
     m_clockEvalTimes := [Finite 4; Finite 6]; m_CPUWorkingDiff := [];
     m_CPUWorkingStart := []; m_GPUSharedDiff := []; m_GPUSharedStart := [];
     m_GPUDedicatedDiff := []; m_Result := ["7"; "7"]%string; m_Hash := [1; 1]%Z |}.

(** A helper whose per-iteration vectors hold two entries each. *)
Definition iter_helper : OutputHelper :=
  {| m_silent := false; m_csvFileName := "perf.csv"; m_csvFileNamePerIteration := "iter.csv";
     m_csvResult := "result.csv"; fileNameIter := "iter.csv"; fileNameRes := "result.csv";
     m_clockLoadTime := Finite 3; m_clockLoadTimes := [Finite 3];
     m_clockBindTimes := [Finite 2; Finite 2]; m_clockEvalTimes := [Finite 4; Finite 6];
     m_CPUWorkingDiff := [Finite 0; Finite 0]; m_CPUWorkingStart := [Finite 5; Finite 5];
     m_GPUSharedDiff := [Finite 0; Finite 0]; m_GPUSharedStart := [Finite 1; Finite 1];
     m_GPUDedicatedDiff := [Finite 0; Finite 0]; m_Result := ["7"; "7"]%string;
     m_Hash := [1; 1]%Z |}.

Definition summary_write (model : string) : SummaryWrite :=
  {| sw_helper := base_helper; sw_profiler := empty_profiler; sw_iterations := 2%Z;
     sw_model := model; sw_modelBinding := "CPU"; sw_inputBinding := "CPU";
     sw_inputType := "Tensor"; sw_deviceCreationLocation := "WinML";
     sw_firstRunIgnored := false |}.

Definition no_files : Files := fun _ => None.

End ReportFixtures.

(** ** The result printers of BindingUtilities *)

Module EvaluationResults.

(** [hresult_out_of_bounds]: [IVectorView::GetAt] past the end. *)
Definition E_BOUNDS : HRESULT := (-2147483637)%Z. (* 0x8000000B *)

Section FloatResult.

(** The element type of the [TensorFloat] result and its [operator<]. *)
Variable R : Type.
Variable lt : R -> R -> bool.

(** The loop [for (UINT i = 0; i < resultVector.Size(); i++)] of the
    [TensorKind::Float] case from index [i], with the running
    [(maxIndex, maxValue)]; [if (maxValue < resultVector.GetAt(i))] moves it. *)
Fixpoint max_loop (v : list R) (i : nat) (best : nat * R) : nat * R :=
  match v with
  | [] => best
  | x :: rest => max_loop rest (S i) (if lt (snd best) x then (i, x) else best)
  end.

(** The [(maxIndex, maxValue)] printed by the [TensorKind::Float] case of
    [PrintEvaluationResults]; [maxValue] starts as [resultVector.GetAt(0)],
    which throws on an empty vector. *)
Definition float_result_max (resultVector : list R) : result (nat * R) :=
  match resultVector with
  | [] => Throw E_BOUNDS
  | x0 :: _ => Ok (max_loop resultVector 0 (0, x0))
  end.

End FloatResult.

Section SequenceResult.

Variables K V : Type.
(** [pair.Value() > maxKey]: the value is compared with the running key. *)
Variable value_gt_key : V -> K -> bool.
(** [K maxKey = -1;] and [V maxVal = -1;]. *)
Variable minus_one_K : K.
Variable minus_one_V : V.

(** The [while (iter.HasCurrent())] loop over the map's pairs. *)
Fixpoint sequence_loop (m : list (K * V)) (best : K * V) : K * V :=
  match m with
  | [] => best
  | (k, v) :: rest =>
      sequence_loop rest (if value_gt_key v (fst best) then (k, v) else best)
  end.

(** [OutputSequenceBinding<K, V>]: the [(maxKey, maxVal)] it prints for the
    first map of the result sequence, read in the map's iteration order. *)
Definition OutputSequenceBinding (m : list (K * V)) : K * V :=
  sequence_loop m (minus_one_K, minus_one_V).

End SequenceResult.

(** [float > int64_t] in [OutputSequenceBinding<int64_t, float>]: finite
    floats as rationals, the key converted to the value's type. *)
Definition float_gt_int64 (v : Q) (k : Z) : bool := negb (Qle_bool v (inject_Z k)).

End EvaluationResults.

(** ** Feature descriptions of OutputHelper *)

Module FeatureInfo.

(** A model's feature descriptors, by [LearningModelFeatureKind] (the enum
    has these four values, so the [default:] branches are not reached). *)
Inductive FeatureDescriptor :=
| TensorFeature (kind : TensorKind.t)
| ImageFeature (height width : Z)
| MapFeature (keyKind : TensorKind.t) (value : FeatureDescriptor)
| SequenceFeature (element : FeatureDescriptor).

(** The [tensorKind] array of [FeatureDescriptorToString]. *)
Definition tensorKind : list string :=
  ["Undefined"; "Float"; "UInt8"; "Int8"; "UInt16"; "Int16"; "Int32"; "Int64";
   "String"; "Boolean"; "Float16"; "Double"; "UInt32"; "UInt64"; "Complex64";
   "Complex128"]%string.

(** [(int)kind]: the value of the [TensorKind] enumerator. *)
Definition kind_index (k : TensorKind.t) : nat :=
  match k with
  | TensorKind.Undefined => 0 | TensorKind.Float => 1 | TensorKind.UInt8 => 2
  | TensorKind.Int8 => 3 | TensorKind.UInt16 => 4 | TensorKind.Int16 => 5
  | TensorKind.Int32 => 6 | TensorKind.Int64 => 7 | TensorKind.String => 8
  | TensorKind.Boolean => 9 | TensorKind.Float16 => 10 | TensorKind.Double => 11
  | TensorKind.UInt32 => 12 | TensorKind.UInt64 => 13 | TensorKind.Complex64 => 14
  | TensorKind.Complex128 => 15
  end.

(** [tensorKind[(int)kind]]. *)
Definition kind_name (k : TensorKind.t) : string := nth (kind_index k) tensorKind EmptyString.

Section ToString.

(** [std::to_wstring] on the image dimensions. *)
Variable to_wstring : Z -> string.

Local Open Scope string_scope.

(** [FeatureDescriptorToString]. *)
Fixpoint FeatureDescriptorToString (d : FeatureDescriptor) : string :=
  match d with
  | TensorFeature k => kind_name k
  | ImageFeature h w =>
      "Image (Height: " ++ to_wstring h ++ ", Width:  " ++ to_wstring w ++ ")"
  | MapFeature k v => "Map<" ++ kind_name k ++ "," ++ FeatureDescriptorToString v ++ ">"
  | SequenceFeature e => "List<" ++ FeatureDescriptorToString e ++ ">"
  end.

End ToString.

Definition is_float16 (k : TensorKind.t) : bool :=
  match k with TensorKind.Float16 => true | _ => false end.

(** [doesDescriptorContainFP16]. *)
Fixpoint doesDescriptorContainFP16 (d : FeatureDescriptor) : bool :=
  match d with
  | TensorFeature k => is_float16 k
  | MapFeature k v => if is_float16 k then true else doesDescriptorContainFP16 v
  | SequenceFeature e => doesDescriptorContainFP16 e
  | ImageFeature _ _ => false
  end.

(** [doesModelContainFP16]: the loop over [model.InputFeatures()]. *)
Definition doesModelContainFP16 (inputFeatures : list FeatureDescriptor) : bool :=
  existsb doesDescriptorContainFP16 inputFeatures.

End FeatureInfo.

(** ** Input, device and format selection of src/CommandLineArgs.h *)

Module InputArgs.

(** The fields read by the input and image-format accessors. *)
Record CommandLineArgs := {
  m_useRGB : bool;
  m_useBGR : bool;
  m_useTensor : bool;
  m_imagePaths : list string;
  m_csvData : string
}.

(** [std::vector::empty()]. *)
Definition empty_paths (l : list string) : bool :=
  match l with [] => true | _ => false end.

Definition UseBGR (a : CommandLineArgs) : bool := m_useBGR a.

Definition UseRGB (a : CommandLineArgs) : bool :=
  m_useRGB a || (negb (empty_paths (m_imagePaths a)) && negb (m_useBGR a) && negb (m_useTensor a)).

Definition UseTensor (a : CommandLineArgs) : bool :=
  m_useTensor a || (negb (m_useBGR a) && negb (UseRGB a)).

Definition IsGarbageInput (a : CommandLineArgs) : bool :=
  empty_paths (m_imagePaths a) && String.eqb (m_csvData a) EmptyString.

Definition IsCSVInput (a : CommandLineArgs) : bool :=
  empty_paths (m_imagePaths a) && negb (String.eqb (m_csvData a) EmptyString).

Definition IsImageInput (a : CommandLineArgs) : bool :=
  negb (empty_paths (m_imagePaths a)) && String.eqb (m_csvData a) EmptyString.

End InputArgs.

(** ** Test inputs of the runner and the printers *)

Module RunFixtures.

(** A platform on which every call succeeds; the [i]-th evaluation takes
    [i] ms. *)
Definition rt_all_ok : Runner.Runtime :=
  {| Runner.LoadFromFilePath := fun p => Ok p;
     Runner.CreateSession := fun _ _ => Ok tt;
     Runner.BindToContext := fun _ _ _ => Ok tt;
     Runner.Evaluate := fun _ _ _ => Ok tt;
     Runner.EvalTime := fun _ _ i => Z.of_nat i |}.

(** No device flag, no performance capture, synthetic input. *)
Definition default_args : Runner.CommandLineArgs :=
  {| Runner.m_perfCapture := false; Runner.m_useCPU := false; Runner.m_useGPU := false;
     Runner.m_useGPUHighPerformance := false; Runner.m_useGPUMinPower := false;
     Runner.m_useCPUandGPU := false; Runner.m_deviceKind := Runner.DirectX;
     Runner.m_imagePath := ""; Runner.m_csvData := ""; Runner.m_modelPath := "m.onnx";
     Runner.m_numIterations := 2 |}.

(** Performance capture on, 3 iterations. *)
Definition perf_args : Runner.CommandLineArgs :=
  {| Runner.m_perfCapture := true; Runner.m_useCPU := true; Runner.m_useGPU := false;
     Runner.m_useGPUHighPerformance := false; Runner.m_useGPUMinPower := false;
     Runner.m_useCPUandGPU := false; Runner.m_deviceKind := Runner.DirectX;
     Runner.m_imagePath := ""; Runner.m_csvData := ""; Runner.m_modelPath := "m.onnx";
     Runner.m_numIterations := 3 |}.

End RunFixtures.

(** ** [main] of Main.cpp *)

Module RunnerMain.
Import Runner.

(** [FAILED(hr)]: a negative HRESULT. *)
Definition FAILED (hr : HRESULT) : bool := Z.ltb hr 0.

(** [output.PrintHardwareInfo()]: one console line standing for the
    adapter description it prints. *)
Definition PrintHardwareInfo (st : RunState) : RunState := log st "Hardware info".

(** [main]: with a model path, load it, evaluate on the CPU and then on
    [DeviceKind()] as selected, stopping at a [FAILED] result, then write
    the summary row under [args.ModelPath()]; otherwise, with a folder path,
    the directory loop; otherwise 0. [folderPath] is [args.FolderPath()] and
    [entries] the paths the directory iterator yields. *)
Definition main (rt : Runtime) (args : CommandLineArgs) (folderPath : string)
    (entries : list string) (st : RunState) : HRESULT * RunState :=
  if negb (String.eqb (m_modelPath args) EmptyString) then
    match LoadModelHelper rt args (PrintHardwareInfo st) with
    | (Throw c, st1) => (c, log st1 "hr.message()")
    | (Ok m, st1) =>
        let '(h1, st2) :=
          if m_useCPUandGPU args || UseCPU args
          then EvaluateModel rt (Some m) args Cpu st1 else (S_OK, st1) in
        if FAILED h1 then (h1, st2) else
        let '(h2, st3) :=
          if m_useCPUandGPU args || UseGPU args
          then EvaluateModel rt (Some m) args (m_deviceKind args) st2 else (S_OK, st2) in
        if FAILED h2 then (h2, st3) else
        (S_OK, reset_output (write_summary_row st3 (m_modelPath args)))
    end
  else if negb (String.eqb folderPath EmptyString) then
    let '(h, _, st') := EvaluateModelsInDirectory rt args entries
                                                  (PrintHardwareInfo st) in (h, st')
  else (S_OK, st).

(** Every [hresult_error] the platform throws from session creation,
    binding or evaluation carries a failure code (or 0). *)
Definition codes_nonpositive (rt : Runtime) : Prop :=
  (forall m d, match CreateSession rt m d with Throw c => (c <= 0)%Z | Ok _ => True end) /\
  (forall m d s, match BindToContext rt m d s with Throw c => (c <= 0)%Z | Ok _ => True end) /\
  (forall m d i, match Evaluate rt m d i with Throw c => (c <= 0)%Z | Ok _ => True end).

End RunnerMain.

(** ** The output calls of a run, with [PrintEvaluationResults] *)

Module EvaluationRun.
Import Output EvaluationResults FeatureInfo.





Section Print.

Variable np : NumPut.
(** The conversion of an [int64_t] key to [float] in
    [pair.Value() > maxKey] of [OutputSequenceBinding<int64_t, float>]. *)
Variable key_to_float : Z -> double.

Local Open Scope string_scope.






End Print.







Section Exec.

Variable np : NumPut.
Variable key_to_float : Z -> double.




End Exec.







End EvaluationRun.

(** * Properties *)

Module DispatcherProofs.
Import BindingUtilities Fixtures.

Example csv_row_split :
  ParseCSVElementStrings csv_fs "input.csv" = Ok ["1"; " 2"]%string.
Proof. reflexivity. Qed.

Example split_trailing_comma :
  split_on "," "a,,b,"%string = ["a"; ""; "b"]%string.
Proof. reflexivity. Qed.

(** C5: for every implemented kind, a CSV row whose element count differs
    from the buffer size is rejected with [E_INVALIDARG]; a row of exactly
    that size is written element by element, nothing truncated or padded. *)
Theorem csv_row_must_match_buffer_size (V : Type) (extract_num : storage -> string -> V)
    (of_char_code : Z -> V) (fs : FileSystem) (d : TensorFeatureDescriptor)
    (csvFilePath : string) (elementStrings : list string) (T : storage) :
  storage_of (Kind d) = Some T ->
  csvFilePath <> EmptyString ->
  ParseCSVElementStrings fs csvFilePath = Ok elementStrings ->
  (List.length elementStrings <> GetDataBufferSize d ->
   CreateBindableTensor V extract_num of_char_code fs d csvFilePath = Throw E_INVALIDARG) /\
  (List.length elementStrings = GetDataBufferSize d ->
   CreateBindableTensor V extract_num of_char_code fs d csvFilePath =
   Ok {| tensor_kind := Kind d; tensor_shape := Shape d;
         tensor_data := map (stream_extract V extract_num of_char_code T) elementStrings |}).
Proof.
  intros Hk Hp Hparse.
  unfold CreateBindableTensor, WriteDataToBinding.
  rewrite Hk.
  apply String.eqb_neq in Hp. rewrite Hp, Hparse. simpl.
  split; intro Hlen.
  - destruct (Nat.eqb_spec (GetDataBufferSize d) (List.length elementStrings)) as [E|E].
    + exfalso. apply Hlen. symmetry. exact E.
    + reflexivity.
  - rewrite Hlen, Nat.eqb_refl. reflexivity.
Qed.

Lemma csv_row_must_match_buffer_size_witness :
  storage_of (Kind float_descriptor) = Some st_float /\
  CreateBindableTensor Z zero_extract id csv_fs float_descriptor "input.csv" =
  Ok {| tensor_kind := TensorKind.Float; tensor_shape := [1; 2];
        tensor_data := map (stream_extract Z zero_extract id st_float) ["1"; " 2"]%string |}.
Proof.
  split; [reflexivity|].
  apply (csv_row_must_match_buffer_size Z zero_extract id csv_fs float_descriptor
           "input.csv" ["1"; " 2"]%string st_float).
  - reflexivity.
  - discriminate.
  - reflexivity.
  - reflexivity.
Defined.

(** C10: with no CSV path, every implemented kind builds a tensor whose
    element count is the buffer size, the product of the declared shape; the
    size check cannot fail. *)
Theorem synthetic_tensor_has_declared_count (V : Type) (extract_num : storage -> string -> V)
    (of_char_code : Z -> V) (fs : FileSystem) (d : TensorFeatureDescriptor) (T : storage) :
  storage_of (Kind d) = Some T ->
  exists t, CreateBindableTensor V extract_num of_char_code fs d EmptyString = Ok t /\
            List.length (tensor_data V t) = shape_product (Shape d).
Proof.
  intros Hk.
  unfold CreateBindableTensor, WriteDataToBinding.
  rewrite Hk. simpl.
  rewrite repeat_length, Nat.eqb_refl. simpl.
  eexists. split; [reflexivity|].
  simpl. rewrite length_map, repeat_length. reflexivity.
Qed.

Lemma synthetic_tensor_has_declared_count_witness :
  storage_of (Kind u8_descriptor) = Some st_uint8 /\
  exists t, CreateBindableTensor Z zero_extract id csv_fs u8_descriptor EmptyString = Ok t /\
            List.length (tensor_data Z t) = shape_product (Shape u8_descriptor).
Proof.
  split; [reflexivity|].
  apply (synthetic_tensor_has_declared_count Z zero_extract id csv_fs u8_descriptor st_uint8).
  reflexivity.
Defined.

End DispatcherProofs.

Module Uint8Proofs.
Import BindingUtilities Fixtures.

(** C9 as stated fails: the cell [" 2"] begins with a space (code 32), yet
    the [UInt8] tensor stores 50, the code of ['2']: the character extractor
    skips leading white space. *)
Lemma uint8_cell_first_char_counterexample :
  ParseCSVElementStrings csv_fs "input.csv" = Ok ["1"; " 2"]%string /\
  Z.of_nat (nat_of_ascii " ") = 32%Z /\
  CreateBindableTensor Z zero_extract id csv_fs u8_descriptor "input.csv" =
  Ok {| tensor_kind := TensorKind.UInt8; tensor_shape := [1; 2];
        tensor_data := [Some 49%Z; Some 50%Z] |}.
Proof. repeat split; reflexivity. Qed.

(** C9, amended: the [Int8] and [UInt8] kinds both bind [uint8_t] storage,
    and each CSV cell stores the character code of its first character that
    is not white space (so ["12"] stores 49, not 12); a cell with no such
    character stores nothing (the element keeps the indeterminate value of
    the unassigned local). *)
Theorem uint8_cells_store_first_nonspace_char (V : Type)
    (extract_num : storage -> string -> V) (of_char_code : Z -> V)
    (fs : FileSystem) (d : TensorFeatureDescriptor) (csvFilePath : string)
    (elementStrings : list string) :
  (Kind d = TensorKind.Int8 \/ Kind d = TensorKind.UInt8) ->
  csvFilePath <> EmptyString ->
  ParseCSVElementStrings fs csvFilePath = Ok elementStrings ->
  List.length elementStrings = GetDataBufferSize d ->
  storage_of (Kind d) = Some st_uint8 /\
  CreateBindableTensor V extract_num of_char_code fs d csvFilePath =
  Ok {| tensor_kind := Kind d; tensor_shape := Shape d;
        tensor_data :=
          map (fun s => match skip_ws s with
                        | EmptyString => None
                        | String c _ => Some (of_char_code (Z.of_nat (nat_of_ascii c)))
                        end) elementStrings |} /\
  extract_uint8 "12" = Some 49%Z.
Proof.
  intros Hkind Hp Hparse Hlen.
  assert (Hk : storage_of (Kind d) = Some st_uint8)
    by (destruct Hkind as [H | H]; rewrite H; reflexivity).
  split; [exact Hk|]. split; [|reflexivity].
  unfold CreateBindableTensor, WriteDataToBinding.
  rewrite Hk.
  apply String.eqb_neq in Hp. rewrite Hp, Hparse. simpl.
  rewrite Hlen, Nat.eqb_refl. simpl.
  f_equal. f_equal.
  apply map_ext. intro s.
  unfold stream_extract, extract_uint8.
  destruct (skip_ws s); reflexivity.
Qed.

Lemma uint8_cells_store_first_nonspace_char_witness :
  (Kind u8_descriptor = TensorKind.Int8 \/ Kind u8_descriptor = TensorKind.UInt8) /\
  storage_of (Kind u8_descriptor) = Some st_uint8.
Proof.
  split; [right; reflexivity|].
  apply (uint8_cells_store_first_nonspace_char Z zero_extract id csv_fs u8_descriptor
           "input.csv" ["1"; " 2"]%string).
  - right. reflexivity.
  - discriminate.
  - reflexivity.
  - reflexivity.
Defined.

End Uint8Proofs.

Module ImageProofs.
Import ImagePreprocess.

Lemma length_upd {A} (l : list A) (n : nat) (x : A) :
  List.length (upd l n x) = List.length l.
Proof.
  revert n. induction l as [|h t IH]; intros [|n]; simpl; auto.
Qed.

Lemma nth_upd_same {A} (l : list A) (n : nat) (x d : A) :
  n < List.length l -> nth n (upd l n x) d = x.
Proof.
  revert n. induction l as [|h t IH]; intros [|n] Hn; simpl in *; try lia; auto.
  apply IH. lia.
Qed.

Lemma nth_upd_other {A} (l : list A) (n k : nat) (x d : A) :
  k <> n -> nth k (upd l n x) d = nth k l d.
Proof.
  revert n k. induction l as [|h t IH]; intros [|n] [|k] Hk; simpl; auto; try lia.
Qed.

(** Distinct pixels of the image land on distinct planar positions. *)
Lemma planar_index_inj (hw j j' c c' : nat) :
  j < hw -> j' < hw -> c < 3 -> c' < 3 -> j + hw * c = j' + hw * c' -> j = j' /\ c = c'.
Proof.
  intros Hj Hj' Hc Hc' E.
  destruct c as [|[|[|c]]]; destruct c' as [|[|[|c']]]; try lia.
Qed.

Section Roll.

Variable R : Type.
Variable of_byte : Z -> R.
Variables fsub fdiv : R -> R -> R.
Variable E : Type.
Variable narrow : R -> E.
Variable hw : nat.
Variable sbBuffer : list Z.
Variable scale : R.
Variable meanStdDev : R * R * R.

Local Abbreviation pv := (pixel_value R of_byte fsub fdiv E narrow sbBuffer scale meanStdDev).
Local Abbreviation rollp := (roll_pixel R of_byte fsub fdiv E narrow hw sbBuffer scale meanStdDev).
Local Abbreviation rolln := (roll R of_byte fsub fdiv E narrow hw sbBuffer scale meanStdDev).

Lemma length_roll_pixel (i : nat) (data : list E) :
  List.length (rollp i data) = List.length data.
Proof. unfold roll_pixel. rewrite !length_upd. reflexivity. Qed.

Lemma length_roll (n i : nat) (data : list E) :
  List.length (rolln n i data) = List.length data.
Proof.
  revert i data. induction n as [|n IH]; intros i data; simpl; auto.
  rewrite IH, length_roll_pixel. reflexivity.
Qed.

Lemma nth_roll_pixel (i c : nat) (data : list E) (d : E) :
  i < hw -> c < 3 -> List.length data = hw * 3 ->
  nth (i + hw * c) (rollp i data) d = pv i c.
Proof.
  intros Hi Hc Hlen. unfold roll_pixel.
  destruct c as [|[|[|c]]]; try lia.
  - rewrite nth_upd_other by lia. rewrite nth_upd_other by lia.
    replace (i + hw * 0) with i by lia.
    apply nth_upd_same. lia.
  - rewrite nth_upd_other by lia.
    replace (i + hw * 1) with (i + hw) by lia.
    apply nth_upd_same. rewrite length_upd. lia.
  - replace (i + hw * 2) with (i + hw * 2) by lia.
    apply nth_upd_same. rewrite !length_upd. lia.
Qed.

Lemma nth_roll_pixel_other (i k : nat) (data : list E) (d : E) :
  (forall c, c < 3 -> k <> i + hw * c) ->
  nth k (rollp i data) d = nth k data d.
Proof.
  intros Hk. unfold roll_pixel.
  rewrite nth_upd_other by (specialize (Hk 2%nat); lia).
  rewrite nth_upd_other by (specialize (Hk 1%nat); lia).
  rewrite nth_upd_other by (specialize (Hk 0%nat); lia).
  reflexivity.
Qed.

(** Positions no pass of the loop writes keep their value. *)
Lemma nth_roll_untouched (n i k : nat) (data : list E) (d : E) :
  (forall j c, i <= j < i + n -> c < 3 -> k <> j + hw * c) ->
  nth k (rolln n i data) d = nth k data d.
Proof.
  revert i data. induction n as [|n IH]; intros i data Hk; simpl; auto.
  rewrite IH.
  - apply nth_roll_pixel_other. intros c Hc. apply Hk; lia.
  - intros j c Hj Hc. apply Hk; lia.
Qed.

(** After the loop, position [j + hw * c] holds pixel [j]'s channel [c]. *)
Lemma nth_roll_planar (n i : nat) (data : list E) (d : E) :
  i + n <= hw -> List.length data = hw * 3 ->
  forall j c, i <= j < i + n -> c < 3 -> nth (j + hw * c) (rolln n i data) d = pv j c.
Proof.
  revert i data. induction n as [|n IH]; intros i data Hn Hlen j c Hj Hc; [lia|].
  simpl.
  destruct (Nat.eq_dec j i) as [->|Hne].
  - rewrite nth_roll_untouched.
    + apply nth_roll_pixel; auto; lia.
    + intros j' c' Hj' Hc' E'.
      destruct (planar_index_inj hw i j' c c') as [H1 _]; try lia.
  - apply IH; try lia.
    rewrite length_roll_pixel. exact Hlen.
Qed.

End Roll.

End ImageProofs.

Module ImageClaim.
Import ImagePreprocess ImageProofs Fixtures.

(** C4 as stated fails: with [scale = 2] and zero offsets the guard is
    false, so a 1x1 image with red byte 10 leaves the zeroed buffer as it
    was, whereas the claim requires [(10 - 0) / 2 = 5] at position 0. *)
Lemma image_normalisation_counterexample :
  PreProcessImageToBinding Q inject_Z Qminus Qdiv q_neq 0%Q 1%Q Q id 1 1
    [10; 20; 30; 255]%Z [0; 0; 0]%Q 2%Q (0, 0, 0)%Q = Ok [0; 0; 0]%Q /\
  ~ (0 == (inject_Z 10 - 0) / 2)%Q.
Proof.
  split.
  - reflexivity.
  - unfold Qeq. simpl. discriminate.
Qed.

(** C4, amended: when the binding buffer has [imgHeight * imgWidth * 3]
    elements and the guard [scale != 1 && (some offset != 0)] holds, the
    result is planar: position [i + imgHeight * imgWidth * c] holds
    [(byte (4 * i + c) - offset[c]) / scale], computed on floats and
    narrowed on store, for every pixel [i] and channel [c < 3] of the packed
    buffer; when the guard fails the buffer is returned unwritten; a buffer
    of another size is rejected with [E_INVALIDARG]. *)
Theorem image_planar_normalisation (R : Type) (of_byte : Z -> R) (fsub fdiv : R -> R -> R)
    (fneq : R -> R -> bool) (fzero fone : R) (E : Type) (narrow : R -> E)
    (imgHeight imgWidth : nat) (sbBuffer : list Z) (bindingData : list E)
    (scale : R) (meanStdDev : R * R * R) (d : E) :
  (List.length bindingData <> imgHeight * imgWidth * 3 ->
   PreProcessImageToBinding R of_byte fsub fdiv fneq fzero fone E narrow imgHeight imgWidth
     sbBuffer bindingData scale meanStdDev = Throw E_INVALIDARG) /\
  (List.length bindingData = imgHeight * imgWidth * 3 ->
   normalise_guard R fneq fzero fone scale meanStdDev = false ->
   PreProcessImageToBinding R of_byte fsub fdiv fneq fzero fone E narrow imgHeight imgWidth
     sbBuffer bindingData scale meanStdDev = Ok bindingData) /\
  (List.length bindingData = imgHeight * imgWidth * 3 ->
   normalise_guard R fneq fzero fone scale meanStdDev = true ->
   exists out,
     PreProcessImageToBinding R of_byte fsub fdiv fneq fzero fone E narrow imgHeight imgWidth
       sbBuffer bindingData scale meanStdDev = Ok out /\
     List.length out = imgHeight * imgWidth * 3 /\
     forall i c, i < imgHeight * imgWidth -> c < 3 ->
       nth (i + imgHeight * imgWidth * c) out d =
       narrow (fdiv (fsub (of_byte (nth (4 * i + c) sbBuffer 0%Z)) (mean_at R meanStdDev c))
                    scale)).
Proof.
  unfold PreProcessImageToBinding.
  split; [|split].
  - intros Hlen.
    destruct (Nat.eqb_spec (List.length bindingData) (imgHeight * imgWidth * 3));
      [contradiction|reflexivity].
  - intros Hlen Hg. rewrite Hlen, Nat.eqb_refl, Hg. reflexivity.
  - intros Hlen Hg. rewrite Hlen, Nat.eqb_refl, Hg. simpl.
    eexists. split; [reflexivity|]. split.
    + rewrite length_roll. exact Hlen.
    + intros i c Hi Hc.
      apply nth_roll_planar; try lia.
Qed.

Lemma image_planar_normalisation_witness :
  List.length [0; 0; 0]%Q = (1 * 1 * 3)%nat /\
  normalise_guard Q q_neq 0%Q 1%Q 2%Q (1, 1, 1)%Q = true /\
  exists out,
    PreProcessImageToBinding Q inject_Z Qminus Qdiv q_neq 0%Q 1%Q Q id 1 1
      [10; 20; 30; 255]%Z [0; 0; 0]%Q 2%Q (1, 1, 1)%Q = Ok out /\
    List.length out = (1 * 1 * 3)%nat /\
    forall i c, i < 1 * 1 -> c < 3 ->
      nth (i + 1 * 1 * c) out 0%Q =
      id ((inject_Z (nth (4 * i + c) [10; 20; 30; 255]%Z 0%Z) - mean_at Q (1, 1, 1)%Q c) / 2)%Q.
Proof.
  split; [reflexivity|]. split; [reflexivity|].
  apply (proj2 (proj2 (image_planar_normalisation Q inject_Z Qminus Qdiv q_neq 0%Q 1%Q Q id
           1 1 [10; 20; 30; 255]%Z [0; 0; 0]%Q 2%Q (1, 1, 1)%Q 0%Q))).
  - reflexivity.
  - reflexivity.
Defined.

End ImageClaim.

Module RunnerProofs.
Import Runner Fixtures Traces.

Lemma eval_iterations_stop (rt : Runtime) (m : string) (d : LearningModelDeviceKind)
    (c : HRESULT) :
  forall k fuel i st,
    k < fuel ->
    (forall j, j < k -> Evaluate rt m d (i + j) = Ok tt) ->
    Evaluate rt m d (i + k) = Throw c ->
    exists st', eval_iterations rt m d fuel i st = (Some c, st') /\
      evaluations st' = evaluations st ++ map (fun j => (m, d, j)) (seq i (S k)).
Proof.
  induction k as [|k IH]; intros fuel i st Hk Hok Hfail.
  - destruct fuel as [|fuel]; [lia|].
    simpl. rewrite Nat.add_0_r in Hfail. rewrite Hfail.
    eexists. split; [reflexivity|]. reflexivity.
  - destruct fuel as [|fuel]; [lia|].
    simpl.
    assert (H0 : Evaluate rt m d i = Ok tt)
      by (rewrite <- (Nat.add_0_r i); apply Hok; lia).
    rewrite H0.
    destruct (IH fuel (S i)
                (push_eval_time (record_eval st (m, d, i)) (EvalTime rt m d i)))
      as [st' [Hrun Hev]].
    + lia.
    + intros j Hj. replace (S i + j) with (i + S j) by lia. apply Hok. lia.
    + replace (S i + k) with (i + S k) by lia. exact Hfail.
    + exists st'. split; [exact Hrun|].
      rewrite Hev. simpl. rewrite <- app_assoc. reflexivity.
Qed.

(** C2 as stated fails: with 3 iterations and a throwing first [Evaluate],
    [EvaluateModel] returns the error after that single call; iterations 1
    and 2 never run. *)
Lemma eval_failure_counterexample :
  EvaluateModel rt_first_eval_fails (Some "m.onnx"%string) cpu_perf_args Cpu empty_run =
  (E_FAIL, {| console := ["[FAILED]"%string]; evaluations := [("m.onnx"%string, Cpu, 0)];
              clockEvalTimes := []; summary_rows := [] |}) /\
  ~ In ("m.onnx"%string, Cpu, 1) [("m.onnx"%string, Cpu, 0)].
Proof.
  split.
  - reflexivity.
  - simpl. intros [H | []]. discriminate.
Qed.

(** C2, amended: in the performance-capture loop the first [Evaluate] that
    throws ends the configuration: [EvaluateModel] returns that call's
    HRESULT, the iterations before it and the failing one are the only
    [Evaluate] calls made, and no later iteration runs. *)
Theorem eval_failure_aborts_configuration (rt : Runtime) (m : string)
    (args : CommandLineArgs) (d : LearningModelDeviceKind) (st : RunState)
    (k : nat) (c : HRESULT) :
  CreateSession rt m d = Ok tt ->
  BindToContext rt m d (input_source args) = Ok tt ->
  m_perfCapture args = true ->
  k < m_numIterations args ->
  (forall i, i < k -> Evaluate rt m d i = Ok tt) ->
  Evaluate rt m d k = Throw c ->
  exists st', EvaluateModel rt (Some m) args d st = (c, st') /\
    evaluations st' = evaluations st ++ map (fun i => (m, d, i)) (seq 0 (S k)).
Proof.
  intros Hs Hb Hp Hk Hok Hfail.
  unfold EvaluateModel. rewrite Hs, Hb, Hp.
  destruct (eval_iterations_stop rt m d c k (m_numIterations args) 0 st Hk Hok Hfail)
    as [st' [Hrun Hev]].
  rewrite Hrun. exists st'. split; [reflexivity|exact Hev].
Qed.

Lemma eval_failure_aborts_configuration_witness :
  exists st', EvaluateModel rt_first_eval_fails (Some "m.onnx"%string) cpu_perf_args Cpu empty_run
              = (E_FAIL, st') /\
    evaluations st' = evaluations empty_run ++ map (fun i => ("m.onnx"%string, Cpu, i)) (seq 0 1).
Proof.
  apply (eval_failure_aborts_configuration rt_first_eval_fails "m.onnx"%string cpu_perf_args Cpu
           empty_run 0 E_FAIL).
  - reflexivity.
  - reflexivity.
  - reflexivity.
  - simpl. lia.
  - intros i Hi. lia.
  - reflexivity.
Defined.

Lemma dir_completes_app (rt : Runtime) :
  forall pre args st a s rest,
    dir_completes rt args pre st = Some (a, s) ->
    EvaluateModelsInDirectory rt args (pre ++ rest) st = EvaluateModelsInDirectory rt a rest s.
Proof.
  induction pre as [|p pre IH]; intros args st a s rest H; simpl in *.
  - injection H as <- <-. reflexivity.
  - destruct (is_model_file p).
    + destruct (process_model rt (SetModelPath args p) p st) as [[h|] st'];
        [discriminate|].
      apply IH. exact H.
    + apply IH. exact H.
Qed.

(** C1 as stated fails: in a directory whose entries come as [a.onnx]
    (fails to load) then [b.onnx] (loads), the loop returns the load error
    and [b.onnx] is never loaded, evaluated or given a summary row. *)
Lemma directory_isolation_counterexample :
  exists args' st',
    EvaluateModelsInDirectory rt_bad_first_model cpu_perf_args ["a.onnx"%string; "b.onnx"%string] empty_run
    = (E_FAIL, args', st') /\ summary_rows st' = [] /\ evaluations st' = [].
Proof.
  do 2 eexists. split; [reflexivity|]. split; reflexivity.
Qed.

(** C1, amended: a model file that fails to load ends the directory run:
    [EvaluateModelsInDirectory] returns the load error at once; the models
    processed before it keep their summary rows and no later entry of the
    directory is loaded, evaluated or written. *)
Theorem directory_stops_at_failed_load (rt : Runtime) (args : CommandLineArgs)
    (pre : list string) (p : string) (post : list string) (st : RunState)
    (a : CommandLineArgs) (s : RunState) (c : HRESULT) :
  dir_completes rt args pre st = Some (a, s) ->
  is_model_file p = true ->
  LoadFromFilePath rt p = Throw c ->
  exists s', EvaluateModelsInDirectory rt args (pre ++ p :: post) st = (c, SetModelPath a p, s') /\
    summary_rows s' = summary_rows s /\ evaluations s' = evaluations s.
Proof.
  intros Hpre Hmodel Hload.
  rewrite (dir_completes_app rt pre args st a s (p :: post) Hpre).
  simpl. rewrite Hmodel.
  unfold process_model, LoadModelHelper. simpl. rewrite Hload.
  eexists. split; [reflexivity|]. split; reflexivity.
Qed.

Lemma directory_stops_at_failed_load_witness :
  exists a s, dir_completes rt_bad_first_model cpu_perf_args ["b.onnx"%string] empty_run
              = Some (a, s) /\
  exists s', EvaluateModelsInDirectory rt_bad_first_model cpu_perf_args
               (["b.onnx"%string] ++ "a.onnx"%string :: ["c.onnx"%string]) empty_run
             = (E_FAIL, SetModelPath a "a.onnx", s') /\
    summary_rows s' = summary_rows s /\ evaluations s' = evaluations s.
Proof.
  do 2 eexists. split.
  - vm_compute. reflexivity.
  - apply (directory_stops_at_failed_load rt_bad_first_model cpu_perf_args ["b.onnx"%string]
             "a.onnx" ["c.onnx"%string] empty_run).
    + vm_compute. reflexivity.
    + reflexivity.
    + reflexivity.
Defined.

End RunnerProofs.

Module TimeBudgetProofs.
Import TimeBudget.

Lemma run_iterations_spec (a : IterationArgs) (cost : nat -> Q) :
  IsTimeLimitIterations a = true ->
  forall fuel i,
    let k := run_iterations a cost fuel i (time_after_first cost i) in
    i <= k <= i + fuel /\
    (k = i + fuel \/ ~ (time_after_first cost k <= IterationTimeLimit a)%Q) /\
    (forall m, i < m < k -> (time_after_first cost m <= IterationTimeLimit a)%Q).
Proof.
  intros Hon fuel. induction fuel as [|fuel IH]; intros i; cbv zeta in *; simpl.
  - split; [lia|]. split; [left; lia|]. intros m Hm. lia.
  - rewrite Hon. simpl.
    change (if Nat.eqb i 0 then time_after_first cost i
            else (time_after_first cost i + cost i)%Q)
      with (time_after_first cost (S i)).
    destruct (Qle_bool (time_after_first cost (S i)) (IterationTimeLimit a)) eqn:Hle;
      simpl;
      (assert (Ht : (if Nat.eqb i 0 then time_after_first cost i
                     else (time_after_first cost i + cost i)%Q) = time_after_first cost (S i))
         by reflexivity);
      try rewrite Ht.
    + destruct (IH (S i)) as [Hb [Hend Hbefore]].
      split; [lia|]. split.
      * destruct Hend as [Hend|Hend]; [left; lia|right; exact Hend].
      * intros m Hm.
        destruct (Nat.eq_dec m (S i)) as [->|Hne].
        -- apply Qle_bool_iff. exact Hle.
        -- apply Hbefore. lia.
    + split; [lia|]. split.
      * right. intro H. apply Qle_bool_iff in H. rewrite H in Hle. discriminate.
      * intros m Hm. lia.
Qed.

(** C3: with a time budget configured, the loop completes at most [N]
    iterations and stops right after the first iteration at which the total
    time of the iterations after the first exceeds the budget (so never
    later than any point where it is exceeded), and the count reported for
    statistics is the completed count. *)
Theorem time_budget_stops_early (a : IterationArgs) (N : nat) (limit : Q) (cost : nat -> Q) :
  let a' := SetIterationTimeLimit (SetRunIterations a N) limit in
  let k := completed_iterations a' cost in
  reported_iterations a' cost = k /\
  k <= N /\
  (k = N \/ ~ (time_after_first cost k <= limit)%Q) /\
  (forall m, 0 < m < k -> (time_after_first cost m <= limit)%Q) /\
  (forall m, 0 < m <= N -> ~ (time_after_first cost m <= limit)%Q -> k <= m).
Proof.
  intros a' k.
  destruct (run_iterations_spec a' cost eq_refl N 0) as [Hb [Hend Hbefore]].
  change (run_iterations a' cost N 0 (time_after_first cost 0)) with k in *.
  split; [reflexivity|].
  split; [lia|].
  split; [destruct Hend; [left; lia|right; exact H]|].
  split; [exact Hbefore|].
  intros m Hm Hexc.
  destruct (Nat.le_gt_cases k m) as [Hle|Hgt]; [exact Hle|].
  exfalso. apply Hexc. apply Hbefore. lia.
Qed.

(** The spec's scenario: a 1 ms budget, 1000 requested iterations of 5 ms
    each stop after 2 iterations, the count the statistics report. *)
Remark time_budget_scenario :
  reported_iterations (SetIterationTimeLimit (SetRunIterations default_args 1000) 1%Q)
    (fun _ => 5%Q) = 2.
Proof. vm_compute. reflexivity. Qed.

End TimeBudgetProofs.

Module SummaryProofs.
Import Output SummaryRuns.

Lemma append_lines_same (fs : Files) (name : string) (lines : list string) :
  append_lines fs name lines name =
  Some (match fs name with None => [] | Some l => l end ++ lines).
Proof. unfold append_lines. rewrite String.eqb_refl. reflexivity. Qed.

Lemma append_lines_other (fs : Files) (name n : string) (lines : list string) :
  n <> name -> append_lines fs name lines n = fs n.
Proof. intros H. unfold append_lines. apply String.eqb_neq in H. rewrite H. reflexivity. Qed.

(** A write to an existing non-empty file only appends its data row. *)
Lemma perform_existing (np : NumPut) (name : string) (w : SummaryWrite) (fs : Files)
    (l : list string) :
  name <> EmptyString -> m_csvFileName (sw_helper w) = name ->
  fs name = Some l -> l <> [] ->
  perform np w fs name = Some (l ++ [data_row np w]).
Proof.
  intros Hn Hw Hl Hne. unfold perform, WritePerformanceDataToCSV.
  rewrite Hw. apply String.eqb_neq in Hn. rewrite Hn.
  unfold is_new_file. rewrite Hl. destruct l as [|x l]; [contradiction|].
  rewrite append_lines_same, Hl. reflexivity.
Qed.

(** A write to a missing or empty file puts the header first. *)
Lemma perform_new (np : NumPut) (name : string) (w : SummaryWrite) (fs : Files) :
  name <> EmptyString -> m_csvFileName (sw_helper w) = name ->
  is_new_file fs name = true ->
  perform np w fs name = Some [summary_header; data_row np w].
Proof.
  intros Hn Hw Hnew. unfold perform, WritePerformanceDataToCSV.
  rewrite Hw. apply String.eqb_neq in Hn. rewrite Hn, Hnew.
  rewrite append_lines_same.
  unfold is_new_file in Hnew.
  destruct (fs name) as [[|x l]|]; [reflexivity|discriminate|reflexivity].
Qed.

Lemma fold_existing (np : NumPut) (name : string) :
  name <> EmptyString ->
  forall ws fs l,
    Forall (fun w => m_csvFileName (sw_helper w) = name) ws ->
    fs name = Some l -> l <> [] ->
    fold_left (fun acc w => perform np w acc) ws fs name = Some (l ++ map (data_row np) ws).
Proof.
  intros Hn ws. induction ws as [|w ws IH]; intros fs l Hall Hl Hne; simpl.
  - rewrite app_nil_r. exact Hl.
  - apply Forall_cons_iff in Hall as [Hw Hrest].
    rewrite (IH (perform np w fs) (l ++ [data_row np w])).
    + rewrite <- app_assoc. reflexivity.
    + exact Hrest.
    + apply perform_existing; auto.
    + intro H. apply app_eq_nil in H. destruct H as [_ H]. discriminate.
Qed.

(** C6: appending summary rows to one CSV file, across any number of
    processes, starting from a missing or empty file: the file ends up as
    exactly one header line followed by the [N] data rows in order; each
    write adds the header exactly when it finds the file empty, so the
    header is never written again. *)
Theorem summary_header_written_once (np : NumPut) (name : string)
    (runs : list (list SummaryWrite)) (fs : Files) :
  name <> EmptyString ->
  Forall (fun w => m_csvFileName (sw_helper w) = name) (List.concat runs) ->
  is_new_file fs name = true ->
  List.concat runs <> [] ->
  append_summaries np runs fs name =
    Some (summary_header :: map (data_row np) (List.concat runs)) /\
  List.length (summary_header :: map (data_row np) (List.concat runs))
    = S (List.length (List.concat runs)).
Proof.
  intros Hn Hall Hnew Hne.
  split; [|simpl; rewrite length_map; reflexivity].
  unfold append_summaries.
  destruct (List.concat runs) as [|w ws]; [contradiction|].
  apply Forall_cons_iff in Hall as [Hw Hrest].
  simpl.
  rewrite (fold_existing np name Hn ws (perform np w fs) [summary_header; data_row np w]).
  - reflexivity.
  - exact Hrest.
  - apply perform_new; auto.
  - discriminate.
Qed.

Lemma summary_header_written_once_witness :
  append_summaries ReportFixtures.test_put
    [[ReportFixtures.summary_write "a.onnx"%string];
     [ReportFixtures.summary_write "b.onnx"%string; ReportFixtures.summary_write "c.onnx"%string]]
    ReportFixtures.no_files "perf.csv"%string =
  Some (summary_header :: map (data_row ReportFixtures.test_put)
          (List.concat [[ReportFixtures.summary_write "a.onnx"%string];
                        [ReportFixtures.summary_write "b.onnx"%string;
                         ReportFixtures.summary_write "c.onnx"%string]])) /\
  List.length (summary_header :: map (data_row ReportFixtures.test_put)
          (List.concat [[ReportFixtures.summary_write "a.onnx"%string];
                        [ReportFixtures.summary_write "b.onnx"%string;
                         ReportFixtures.summary_write "c.onnx"%string]])) = 4.
Proof.
  apply (summary_header_written_once ReportFixtures.test_put "perf.csv"%string).
  - discriminate.
  - simpl. repeat constructor.
  - reflexivity.
  - discriminate.
Defined.

End SummaryProofs.

Module NotAvailableProofs.
Import Output ReportFixtures.

(** C7 (the code misses it): with no recorded sample every average is the
    not-available sentinel; the Load cell guards it with [isnan] and writes
    ["N/A"], but the Bind cell (like Evaluate, Total and the memory cells,
    in the CSV row and on the console) streams the NaN itself, which no
    [operator<<] renders as ["N/A"]. *)
Theorem zero_sample_average_rendering (np : NumPut) (h : OutputHelper) (n : Z)
    (k : nat) (mn mb ib it dcl : string) (fri : bool) :
  put_double np NaN <> "N/A"%string ->
  m_silent h = false ->
  (forall s ct, GetAverage empty_profiler s ct = NaN) /\
  nth 7 (summary_cells np h empty_profiler n mn mb ib it dcl fri) EmptyString = "N/A"%string /\
  nth 8 (summary_cells np h empty_profiler n mn mb ib it dcl fri) EmptyString
    = put_double np NaN /\
  nth 8 (summary_cells np h empty_profiler n mn mb ib it dcl fri) EmptyString <> "N/A"%string /\
  nth 1 (PrintResults np h empty_profiler k) EmptyString
    = ("  Bind: " ++ put_double np NaN ++ " ms")%string.
Proof.
  intros Hnan Hs.
  split; [intros s ct; reflexivity|].
  split; [reflexivity|].
  split; [reflexivity|].
  split; [exact Hnan|].
  unfold PrintResults. rewrite Hs. reflexivity.
Qed.

Lemma zero_sample_average_rendering_witness :
  put_double test_put NaN <> "N/A"%string /\
  nth 8 (summary_cells test_put base_helper empty_profiler 2 "m.onnx" "CPU" "CPU" "Tensor"
           "WinML" false) EmptyString = "nan"%string.
Proof.
  split; [discriminate|].
  destruct (zero_sample_average_rendering test_put base_helper 2 2 "m.onnx" "CPU" "CPU"
              "Tensor" "WinML" false) as [_ [_ [H _]]].
  - discriminate.
  - reflexivity.
  - exact H.
Defined.

End NotAvailableProofs.

Module SilentProofs.
Import Output EvaluationRun ReportFixtures.







Section Silent.

Variable np : NumPut.
Variable key_to_float : Z -> double.








End Silent.




End SilentProofs.

Module CsvProofs.
Import BindingUtilities.

Lemma append_assoc_str (a b c : string) :
  String.append (String.append a b) c = String.append a (String.append b c).
Proof. induction a as [|x a IH]; simpl; [reflexivity|now rewrite IH]. Qed.

Lemma append_empty_r (a : string) : String.append a EmptyString = a.
Proof. induction a as [|x a IH]; simpl; [reflexivity|now rewrite IH]. Qed.

(** A stretch without the delimiter only grows the current piece. *)
Lemma pieces_no_delim (s rest cur : string) :
  Forall (fun a => a <> ","%char) (list_ascii_of_string s) ->
  getline_pieces "," (String.append s rest) cur
  = getline_pieces "," rest (String.append cur s).
Proof.
  revert cur. induction s as [|a s IH]; intros cur H; simpl.
  - rewrite append_empty_r. reflexivity.
  - apply Forall_cons_iff in H as [Ha Hs].
    destruct (Ascii.eqb a ",") eqn:E.
    + apply Ascii.eqb_eq in E. contradiction.
    + rewrite IH by exact Hs. rewrite append_assoc_str. reflexivity.
Qed.

Lemma split_concat_aux (cs : list string) :
  forall (c cur : string),
    Forall (fun x => Forall (fun a => a <> ","%char) (list_ascii_of_string x)) (c :: cs) ->
    last (c :: cs) EmptyString <> EmptyString ->
    getline_pieces "," (String.concat "," (c :: cs)) cur = String.append cur c :: cs.
Proof.
  induction cs as [|c' cs IH]; intros c cur Hall Hlast.
  - simpl in Hlast |- *. apply Forall_cons_iff in Hall as [Hc _].
    rewrite <- (append_empty_r c) at 1. rewrite pieces_no_delim by exact Hc.
    destruct c as [|x c]; [contradiction|].
    destruct cur; reflexivity.
  - apply Forall_cons_iff in Hall as [Hc Hrest].
    change (String.concat "," (c :: c' :: cs))
      with (String.append c (String.append "," (String.concat "," (c' :: cs)))).
    rewrite pieces_no_delim by exact Hc.
    transitivity (String.append cur c
                  :: getline_pieces "," (String.concat "," (c' :: cs)) EmptyString);
      [reflexivity|].
    rewrite (IH c' EmptyString Hrest Hlast). reflexivity.
Qed.

(** X1 ([ReadCsvLine]): a row written as comma-joined cells, none of which
    contains a comma and the last of which is not empty, is split back into
    exactly those cells. *)
Theorem csv_cells_round_trip (cells : list string) :
  Forall (fun x => Forall (fun a => a <> ","%char) (list_ascii_of_string x)) cells ->
  last cells EmptyString <> EmptyString ->
  split_on "," (String.concat "," cells) = cells.
Proof.
  intros Hall Hlast. destruct cells as [|c cs]; [contradiction|].
  unfold split_on. rewrite split_concat_aux by assumption. reflexivity.
Qed.

Lemma csv_cells_round_trip_witness :
  split_on "," (String.concat "," ["1"; " 2"; ""; "3"]%string) = ["1"; " 2"; ""; "3"]%string.
Proof.
  apply csv_cells_round_trip.
  - repeat constructor; discriminate.
  - discriminate.
Defined.

Lemma first_line_app (line rest : string) :
  Forall (fun a => a <> "010"%char) (list_ascii_of_string line) ->
  (rest = EmptyString \/ exists r, rest = String "010" r) ->
  first_line_aux (String.append line rest) = line.
Proof.
  intros Hl Hr. induction line as [|a line IH]; simpl.
  - destruct Hr as [-> | [r ->]]; reflexivity.
  - apply Forall_cons_iff in Hl as [Ha Hl].
    destruct (Ascii.eqb a "010") eqn:E.
    + apply Ascii.eqb_eq in E. contradiction.
    + rewrite IH by exact Hl. reflexivity.
Qed.

(** X2 ([ParseCSVElementStrings], [ReadCsvLine]): when the file holds a
    first line followed by a newline or by nothing, the element strings are
    the comma-separated pieces of that first line; every later row is
    ignored. *)
Theorem csv_reads_first_row_only (fs : FileSystem) (path line rest : string) :
  fs path = Some (String.append line rest) ->
  String.append line rest <> EmptyString ->
  Forall (fun a => a <> "010"%char) (list_ascii_of_string line) ->
  (rest = EmptyString \/ exists r, rest = String "010" r) ->
  ParseCSVElementStrings fs path = Ok (split_on "," line).
Proof.
  intros Hfs Hne Hl Hr. unfold ParseCSVElementStrings. rewrite Hfs.
  unfold getline_first.
  destruct (String.append line rest) as [|c s] eqn:E; [contradiction|].
  rewrite <- E, first_line_app by assumption. reflexivity.
Qed.

Lemma csv_reads_first_row_only_witness :
  ParseCSVElementStrings Fixtures.csv_fs "input.csv" = Ok ["1"; " 2"]%string.
Proof.
  apply (csv_reads_first_row_only Fixtures.csv_fs "input.csv" "1, 2" (String "010" "3,4
")).
  - reflexivity.
  - discriminate.
  - repeat constructor; discriminate.
  - right. eexists. reflexivity.
Defined.

(** X5 ([CreateBindableTensor] with no CSV path): an Int8 or UInt8 input
    gets [GetDataBufferSize] elements that are all indeterminate, since
    extracting a [uint8_t] from an empty string stores nothing. *)
Theorem synthetic_uint8_tensor_indeterminate (V : Type) (ex : storage -> string -> V)
    (oc : Z -> V) (fs : FileSystem) (d : TensorFeatureDescriptor) :
  Kind d = TensorKind.Int8 \/ Kind d = TensorKind.UInt8 ->
  CreateBindableTensor V ex oc fs d EmptyString =
  Ok {| tensor_kind := Kind d; tensor_shape := Shape d;
        tensor_data := repeat None (GetDataBufferSize d) |}.
Proof.
  intros HK. unfold CreateBindableTensor.
  assert (HT : storage_of (Kind d) = Some st_uint8) by (destruct HK as [-> | ->]; reflexivity).
  rewrite HT. simpl. unfold WriteDataToBinding.
  rewrite repeat_length, Nat.eqb_refl. simpl.
  rewrite map_repeat. reflexivity.
Qed.

Lemma synthetic_uint8_tensor_indeterminate_witness :
  CreateBindableTensor Z Fixtures.zero_extract id Fixtures.csv_fs Fixtures.u8_descriptor
    EmptyString =
  Ok {| tensor_kind := TensorKind.UInt8; tensor_shape := [1; 2]; tensor_data := [None; None] |}.
Proof.
  apply (synthetic_uint8_tensor_indeterminate Z Fixtures.zero_extract id Fixtures.csv_fs
           Fixtures.u8_descriptor).
  right. reflexivity.
Defined.

End CsvProofs.

Module ResultProofs.
Import EvaluationResults.

Section FirstMaximum.

Variable R : Type.
Variable lt : R -> R -> bool.
Hypothesis lt_irrefl : forall x, lt x x = false.
Hypothesis lt_trans : forall x y z, lt x y = true -> lt y z = true -> lt x z = true.
Hypothesis lt_total : forall x y, lt x y = false -> lt y x = false -> x = y.

(** What the loop keeps about the prefix it has read. *)
Lemma max_loop_inv (suffix : list R) :
  forall (prefix : list R) (i : nat) (m : R),
    i < List.length prefix -> nth_error prefix i = Some m ->
    (forall j x, nth_error prefix j = Some x -> lt m x = false) ->
    (forall j x, j < i -> nth_error prefix j = Some x -> lt x m = true) ->
    let r := max_loop R lt suffix (List.length prefix) (i, m) in
    fst r < List.length (prefix ++ suffix) /\
    nth_error (prefix ++ suffix) (fst r) = Some (snd r) /\
    (forall j x, nth_error (prefix ++ suffix) j = Some x -> lt (snd r) x = false) /\
    (forall j x, j < fst r -> nth_error (prefix ++ suffix) j = Some x -> lt x (snd r) = true).
Proof.
  induction suffix as [|x rest IH]; intros prefix i m Hi Hm Hall Hbefore.
  - simpl. rewrite app_nil_r. auto.
  - replace (prefix ++ x :: rest) with ((prefix ++ [x]) ++ rest)
      by (rewrite <- app_assoc; reflexivity).
    simpl.
    assert (Hlen : List.length (prefix ++ [x]) = S (List.length prefix))
      by (rewrite length_app; simpl; lia).
    rewrite <- Hlen.
    assert (Hnth : forall j y, nth_error (prefix ++ [x]) j = Some y ->
              (j < List.length prefix /\ nth_error prefix j = Some y) \/ y = x).
    { intros j y Hj. destruct (Nat.lt_ge_cases j (List.length prefix)) as [Hl|Hl].
      - left. rewrite nth_error_app1 in Hj by exact Hl. auto.
      - right. rewrite nth_error_app2 in Hj by exact Hl.
        destruct (j - List.length prefix) as [|k]; simpl in Hj.
        + congruence.
        + destruct k; discriminate Hj. }
    destruct (lt m x) eqn:Hmx; simpl.
    + apply IH.
      * rewrite Hlen. lia.
      * rewrite nth_error_app2 by lia. rewrite Nat.sub_diag. reflexivity.
      * intros j y Hj. destruct (Hnth j y Hj) as [[_ Hy]| ->]; [|apply lt_irrefl].
        destruct (lt x y) eqn:Hxy; [|reflexivity].
        pose proof (Hall j y Hy) as Hmy. rewrite (lt_trans m x y Hmx Hxy) in Hmy.
        discriminate Hmy.
      * intros j y Hj Hy. rewrite nth_error_app1 in Hy by exact Hj.
        pose proof (Hall j y Hy) as Hmy.
        destruct (lt y m) eqn:Hym.
        -- exact (lt_trans y m x Hym Hmx).
        -- rewrite (lt_total y m Hym Hmy). exact Hmx.
    + apply IH.
      * rewrite Hlen. lia.
      * rewrite nth_error_app1 by exact Hi. exact Hm.
      * intros j y Hj. destruct (Hnth j y Hj) as [[_ Hy]| ->]; [exact (Hall j y Hy)|exact Hmx].
      * intros j y Hj Hy. rewrite nth_error_app1 in Hy by lia. exact (Hbefore j y Hj Hy).
Qed.

End FirstMaximum.

(** X6 ([PrintEvaluationResults], [TensorKind::Float] case): for a strict
    total order on the values (no NaN), the reported [resultVector[maxIndex]]
    is a maximum and [maxIndex] is the first position holding one: every
    earlier value is strictly smaller. An empty result vector makes
    [GetAt(0)] throw E_BOUNDS. *)
Theorem float_result_reports_first_maximum (R : Type) (lt : R -> R -> bool)
    (lt_irrefl : forall x, lt x x = false)
    (lt_trans : forall x y z, lt x y = true -> lt y z = true -> lt x z = true)
    (lt_total : forall x y, lt x y = false -> lt y x = false -> x = y)
    (v : list R) (i : nat) (m : R) :
  float_result_max R lt [] = Throw E_BOUNDS /\
  (float_result_max R lt v = Ok (i, m) ->
   nth_error v i = Some m /\
   (forall j x, nth_error v j = Some x -> lt m x = false) /\
   (forall j x, j < i -> nth_error v j = Some x -> lt x m = true)).
Proof.
  split; [reflexivity|].
  destruct v as [|x0 rest]; simpl; [discriminate|].
  rewrite lt_irrefl. intros H. injection H as Hr.
  pose proof (max_loop_inv R lt lt_irrefl lt_trans lt_total rest [x0] 0 x0) as Hinv.
  simpl in Hinv. rewrite Hr in Hinv. simpl in Hinv.
  destruct Hinv as [_ [H1 [H2 H3]]].
  - lia.
  - reflexivity.
  - intros j x Hj. destruct j as [|[|j]]; simpl in Hj; try discriminate.
    injection Hj as <-. apply lt_irrefl.
  - intros j x Hj. lia.
  - auto.
Qed.

Lemma float_result_reports_first_maximum_witness :
  float_result_max Z Z.ltb [1; 5; 3; 5]%Z = Ok (1, 5%Z) /\
  nth_error [1; 5; 3; 5]%Z 1 = Some 5%Z /\
  (forall j x, nth_error [1; 5; 3; 5]%Z j = Some x -> Z.ltb 5 x = false) /\
  (forall j x, j < 1 -> nth_error [1; 5; 3; 5]%Z j = Some x -> Z.ltb x 5 = true).
Proof.
  split; [reflexivity|].
  refine (proj2 (float_result_reports_first_maximum Z Z.ltb _ _ _ [1; 5; 3; 5]%Z 1 5%Z) _).
  - intros x. apply Z.ltb_irrefl.
  - intros x y z H1 H2. apply Z.ltb_lt in H1, H2. apply Z.ltb_lt. lia.
  - intros x y H1 H2. apply Z.ltb_ge in H1, H2. lia.
  - reflexivity.
Defined.

Lemma gt_key_false (v : Q) (k : Z) : (v <= 1)%Q -> (1 <= k)%Z -> float_gt_int64 v k = false.
Proof.
  intros Hv Hk. unfold float_gt_int64.
  assert (H : (v <= inject_Z k)%Q).
  { apply Qle_trans with (y := 1%Q); [exact Hv|].
    change 1%Q with (inject_Z 1). rewrite <- Zle_Qle. exact Hk. }
  apply Qle_bool_iff in H. rewrite H. reflexivity.
Qed.

(** Once a key of at least 1 is held, no value of at most 1 replaces it. *)
Lemma sequence_stuck (l : list (Z * Q)) :
  forall b : Z * Q, (1 <= fst b)%Z -> Forall (fun kv => snd kv <= 1)%Q l ->
  sequence_loop Z Q float_gt_int64 l b = b.
Proof.
  induction l as [|[k v] l IH]; intros b Hb Hl; simpl; [reflexivity|].
  apply Forall_cons_iff in Hl as [Hv Hl]. simpl in Hv.
  rewrite gt_key_false by assumption. apply IH; assumption.
Qed.

Lemma forall_snd (vals : list Q) (k : nat) :
  Forall (fun v => 0 <= v <= 1)%Q vals ->
  Forall (fun kv => snd kv <= 1)%Q (combine (map Z.of_nat (seq k (List.length vals))) vals).
Proof.
  revert k. induction vals as [|v vals IH]; intros k H; simpl; [constructor|].
  apply Forall_cons_iff in H as [Hv H]. constructor; [apply Hv|apply IH; exact H].
Qed.

Lemma sequence_from_zero (vals : list Q) :
  forall (k : nat) (v0 : Q), 1 <= k -> Forall (fun v => 0 <= v <= 1)%Q vals ->
  let r := sequence_loop Z Q float_gt_int64
             (combine (map Z.of_nat (seq k (List.length vals))) vals) (0%Z, v0) in
  (r = (0%Z, v0) /\ forall j, j < List.length vals -> nth j vals 0%Q == 0%Q) \/
  (exists j, j < List.length vals /\ r = (Z.of_nat (k + j), nth j vals 0%Q) /\
     (0 < nth j vals 0%Q)%Q /\ forall i, i < j -> nth i vals 0%Q == 0%Q).
Proof.
  induction vals as [|v vals IH]; intros k v0 Hk H; simpl.
  - left. split; [reflexivity|intros j Hj; simpl in Hj; lia].
  - apply Forall_cons_iff in H as [[Hv0 Hv1] H].
    destruct (float_gt_int64 v 0) eqn:Hg; simpl.
    2:{ unfold float_gt_int64 in Hg. apply negb_false_iff in Hg.
        apply Qle_bool_iff in Hg. rename Hg into Hle.
      assert (Hz : v == 0%Q) by (apply Qle_antisym; assumption).
      destruct (IH (S k) v0 ltac:(lia) H) as [[Hr Hall]|[j [Hj [Hr [Hpos Hbefore]]]]].
      * left. split; [exact Hr|].
        intros [|j] Hj; simpl; [exact Hz|apply Hall; simpl in Hj; lia].
      * right. exists (S j). split; [simpl; lia|]. split.
        -- rewrite Hr. simpl. f_equal. f_equal. lia.
        -- split; [exact Hpos|]. intros [|i] Hi; simpl; [exact Hz|apply Hbefore; lia]. }
    + unfold float_gt_int64 in Hg. apply negb_true_iff in Hg.
      right. exists 0. split; [simpl; lia|].
      rewrite sequence_stuck.
      * split; [simpl; f_equal; f_equal; lia|].
        split; [|intros i Hi; lia]. simpl.
        apply Qnot_le_lt. intros Hc.
        assert (Hb : Qle_bool v (inject_Z 0) = true) by (apply Qle_bool_iff; exact Hc).
        congruence.
      * simpl. lia.
      * apply forall_snd. exact H.
Qed.

(** X7 ([OutputSequenceBinding<int64_t, float>] called by
    [PrintEvaluationResults]): the loop compares each value with the running
    maximum key, not with the running maximum value. For a map with keys
    0, 1, 2, ... and values in [0, 1] (class probabilities), it prints the
    first entry after key 0 whose value is positive, or key 0 when there is
    none, whatever the largest value is. *)
Theorem sequence_result_first_positive_key (v0 : Q) (rest : list Q) :
  Forall (fun v => 0 <= v <= 1)%Q (v0 :: rest) ->
  let r := OutputSequenceBinding Z Q float_gt_int64 (-1)%Z (-1)%Q
             (combine (map Z.of_nat (seq 0 (List.length (v0 :: rest)))) (v0 :: rest)) in
  (r = (0%Z, v0) /\ forall j, j < List.length rest -> nth j rest 0%Q == 0%Q) \/
  (exists j, j < List.length rest /\ r = (Z.of_nat (S j), nth j rest 0%Q) /\
     (0 < nth j rest 0%Q)%Q /\ forall i, i < j -> nth i rest 0%Q == 0%Q).
Proof.
  intros H. apply Forall_cons_iff in H as [[Hv0 _] H].
  unfold OutputSequenceBinding. simpl.
  assert (Hgt : float_gt_int64 v0 (-1) = true).
  { unfold float_gt_int64. destruct (Qle_bool v0 (inject_Z (-1))) eqn:E; [|reflexivity].
    apply Qle_bool_iff in E. exfalso.
    assert (Hc : (0 <= inject_Z (-1))%Q) by (apply Qle_trans with (y := v0); assumption).
    rewrite <- (Qle_bool_iff 0 (inject_Z (-1))) in Hc. discriminate Hc. }
  rewrite Hgt. exact (sequence_from_zero rest 1 v0 (le_n 1) H).
Qed.

Lemma sequence_result_first_positive_key_witness :
  OutputSequenceBinding Z Q float_gt_int64 (-1)%Z (-1)%Q
    [(0%Z, 1#10); (1%Z, 2#10); (2%Z, 7#10)] = (1%Z, 2#10).
Proof.
  destruct (sequence_result_first_positive_key (1#10) [2#10; 7#10]) as [[Hr _]|[j [Hj [Hr _]]]].
  - repeat constructor; discriminate.
  - discriminate Hr.
  - simpl in Hj. destruct j as [|[|j]]; simpl in Hr; [exact Hr| |lia].
    discriminate Hr.
Defined.

End ResultProofs.

Module FeatureProofs.
Import FeatureInfo CsvProofs.

Lemma sub_left (x s t : string) :
  (exists a b, s = String.append a (String.append t b)) ->
  exists a b, String.append x s = String.append a (String.append t b).
Proof.
  intros [a [b ->]]. exists (String.append x a), b. rewrite append_assoc_str. reflexivity.
Qed.

Lemma sub_right (s y t : string) :
  (exists a b, s = String.append a (String.append t b)) ->
  exists a b, String.append s y = String.append a (String.append t b).
Proof.
  intros [a [b ->]]. exists a, (String.append b y).
  rewrite !append_assoc_str. reflexivity.
Qed.

Lemma descriptor_fp16_shown (to_wstring : Z -> string) (d : FeatureDescriptor) :
  doesDescriptorContainFP16 d = true ->
  exists a b, FeatureDescriptorToString to_wstring d
              = String.append a (String.append "Float16" b).
Proof.
  induction d as [k|h w|k v IH|e IH];
    cbn [FeatureDescriptorToString doesDescriptorContainFP16]; intros H.
  - destruct k; try discriminate H. exists EmptyString, EmptyString. reflexivity.
  - discriminate H.
  - destruct (is_float16 k) eqn:Hk.
    + destruct k; try discriminate Hk.
      exists "Map<"%string, (String.append "," (String.append
                               (FeatureDescriptorToString to_wstring v) ">")).
      reflexivity.
    + apply sub_left, sub_left, sub_left, sub_right, IH, H.
  - apply sub_left, sub_right, IH, H.
Qed.

(** X8 ([doesModelContainFP16], [doesDescriptorContainFP16],
    [FeatureDescriptorToString]): when the model is reported as supporting
    FP16, one of its input features contains Float16 and the feature kind
    printed for it by [PrintFeatureDescriptorInfo] shows "Float16". *)
Theorem fp16_support_shown_in_input_info (to_wstring : Z -> string)
    (inputFeatures : list FeatureDescriptor) :
  doesModelContainFP16 inputFeatures = true ->
  exists d, In d inputFeatures /\ doesDescriptorContainFP16 d = true /\
    exists a b, FeatureDescriptorToString to_wstring d
                = String.append a (String.append "Float16" b).
Proof.
  unfold doesModelContainFP16. intros H. apply existsb_exists in H as [d [Hin Hd]].
  exists d. split; [exact Hin|]. split; [exact Hd|].
  apply descriptor_fp16_shown. exact Hd.
Qed.

Lemma fp16_support_shown_in_input_info_witness :
  exists d, In d [TensorFeature TensorKind.Float;
                  SequenceFeature (MapFeature TensorKind.Int64 (TensorFeature TensorKind.Float16))] /\
    doesDescriptorContainFP16 d = true /\
    exists a b, FeatureDescriptorToString (fun _ => EmptyString) d
                = String.append a (String.append "Float16" b).
Proof.
  apply fp16_support_shown_in_input_info. reflexivity.
Defined.

(** X9 ([FeatureDescriptorToString]): the [tensorKind] name table has an
    entry for every [TensorKind] value, and distinct kinds get distinct
    names. *)
Theorem tensor_kind_names_distinct :
  (forall k, kind_index k < List.length tensorKind) /\
  (forall k1 k2, kind_name k1 = kind_name k2 -> k1 = k2).
Proof.
  split.
  - intros k. destruct k; simpl; lia.
  - intros k1 k2 H. destruct k1, k2; try reflexivity; vm_compute in H; discriminate H.
Qed.

End FeatureProofs.

Module RunnerExtraProofs.
Import Runner Fixtures RunFixtures.

Lemma eval_iterations_all_ok (rt : Runtime) (m : string) (d : LearningModelDeviceKind) :
  forall fuel i st,
    (forall j, i <= j < i + fuel -> Evaluate rt m d j = Ok tt) ->
    eval_iterations rt m d fuel i st =
    (None, {| console := console st;
              evaluations := evaluations st ++ map (fun j => (m, d, j)) (seq i fuel);
              clockEvalTimes := clockEvalTimes st ++ map (EvalTime rt m d) (seq i fuel);
              summary_rows := summary_rows st |}).
Proof.
  induction fuel as [|f IH]; intros i st H; simpl.
  - rewrite !app_nil_r. destruct st; reflexivity.
  - rewrite (H i) by lia. simpl.
    rewrite IH by (intros j Hj; apply H; lia).
    simpl. rewrite <- !app_assoc. reflexivity.
Qed.


Lemma EvaluateModel_ok (rt : Runtime) (m : string) (args : CommandLineArgs)
    (d : LearningModelDeviceKind) (st : RunState) :
  CreateSession rt m d = Ok tt ->
  BindToContext rt m d (input_source args) = Ok tt ->
  (forall i, Evaluate rt m d i = Ok tt) ->
  exists st', EvaluateModel rt (Some m) args d st = (S_OK, st') /\
    summary_rows st' = summary_rows st.
Proof.
  intros Hs Hb He. unfold EvaluateModel. rewrite Hs, Hb.
  destruct (m_perfCapture args).
  - rewrite eval_iterations_all_ok by (intros; apply He).
    eexists. split; reflexivity.
  - rewrite He. eexists. split; reflexivity.
Qed.

Lemma process_model_ok (rt : Runtime) (args : CommandLineArgs) (path m : string)
    (st : RunState) :
  LoadFromFilePath rt (m_modelPath args) = Ok m ->
  (forall d, CreateSession rt m d = Ok tt /\
             BindToContext rt m d (input_source args) = Ok tt /\
             forall i, Evaluate rt m d i = Ok tt) ->
  exists st', process_model rt args path st = (None, st') /\
    summary_rows st' = summary_rows st ++ [path].
Proof.
  intros Hl Hall. unfold process_model, LoadModelHelper. rewrite Hl.
  set (st1 := log st "Loading model...[SUCCESS]").
  assert (Hok : forall d s, exists s', EvaluateModel rt (Some m) args d s = (S_OK, s') /\
                                       summary_rows s' = summary_rows s).
  { intros d s. destruct (Hall d) as [Hs [Hb He]]. apply EvaluateModel_ok; assumption. }
  destruct (Hok Cpu st1) as [s1 [E1 R1]].
  destruct (Hok (m_deviceKind args) s1) as [s2 [E2 R2]].
  destruct (Hok (m_deviceKind args) st1) as [s3 [E3 R3]].
  destruct (m_useCPUandGPU args || UseCPU args);
    [rewrite E1|]; cbn beta iota zeta; rewrite ?Z.eqb_refl; cbn [negb];
    (destruct (m_useCPUandGPU args || UseGPU args); [rewrite ?E2, ?E3|]);
    cbn beta iota zeta; rewrite ?Z.eqb_refl; cbn [negb];
    eexists; (split; [reflexivity|]); simpl; rewrite ?R2, ?R3, ?R1; reflexivity.
Qed.



(** X11 ([UseCPU], [UseGPU] and the device selection of
    [EvaluateModelsInDirectory]): when only [-GPUHighPerformance] or
    [-GPUMinPower] is set (no [-CPU], no [-GPU], [UseCPUandGPU()] false),
    both [UseCPU()] and [UseGPU()] are false, so the loaded model is never
    evaluated, yet its summary row is written. *)
Theorem gpu_preference_flag_alone_evaluates_nothing (rt : Runtime)
    (args : CommandLineArgs) (path m : string) (st : RunState) :
  m_useCPUandGPU args = false ->
  m_useCPU args = false ->
  m_useGPU args = false ->
  m_useGPUHighPerformance args || m_useGPUMinPower args = true ->
  LoadFromFilePath rt (m_modelPath args) = Ok m ->
  UseCPU args = false /\ UseGPU args = false /\
  process_model rt args path st =
    (None, reset_output (write_summary_row (log st "Loading model...[SUCCESS]") path)).
Proof.
  intros Hboth Hc Hg Hpref Hl.
  assert (Hcpu : UseCPU args = false).
  { unfold UseCPU. rewrite Hc, Hg. simpl.
    destruct (m_useGPUHighPerformance args), (m_useGPUMinPower args);
      try discriminate Hpref; reflexivity. }
  assert (Hgpu : UseGPU args = false).
  { unfold UseGPU. rewrite Hc, Hg. simpl.
    destruct (m_useGPUHighPerformance args), (m_useGPUMinPower args);
      try discriminate Hpref; reflexivity. }
  split; [exact Hcpu|]. split; [exact Hgpu|].
  unfold process_model, LoadModelHelper. rewrite Hl, Hboth, Hcpu, Hgpu. reflexivity.
Qed.

Lemma gpu_preference_flag_alone_evaluates_nothing_witness :
  let args := {| m_perfCapture := false; m_useCPU := false; m_useGPU := false;
                 m_useGPUHighPerformance := true; m_useGPUMinPower := false;
                 m_useCPUandGPU := false; m_deviceKind := DirectXHighPerformance;
                 m_imagePath := ""; m_csvData := ""; m_modelPath := "m.onnx";
                 m_numIterations := 1 |} in
  UseCPU args = false /\ UseGPU args = false /\
  process_model rt_all_ok args "m.onnx" empty_run =
    (None, reset_output (write_summary_row (log empty_run "Loading model...[SUCCESS]") "m.onnx")).
Proof.
  intros args.
  apply (gpu_preference_flag_alone_evaluates_nothing rt_all_ok args "m.onnx" "m.onnx");
    reflexivity.
Defined.

Lemma directory_all_ok_aux (rt : Runtime) (src : InputSource) (entries : list string) :
  (forall p, In p entries -> is_model_file p = true ->
     exists m, LoadFromFilePath rt p = Ok m /\
       forall d, CreateSession rt m d = Ok tt /\ BindToContext rt m d src = Ok tt /\
                 forall i, Evaluate rt m d i = Ok tt) ->
  forall args st, input_source args = src ->
  exists a st', EvaluateModelsInDirectory rt args entries st = (S_OK, a, st') /\
    summary_rows st' = summary_rows st ++ filter is_model_file entries.
Proof.
  induction entries as [|p rest IH]; intros H args st Hsrc; simpl.
  - exists args, st. split; [reflexivity|]. rewrite app_nil_r. reflexivity.
  - destruct (is_model_file p) eqn:Hp.
    + destruct (H p (or_introl eq_refl) Hp) as [m [Hl Hall]].
      destruct (process_model_ok rt (SetModelPath args p) p m st) as [s1 [E1 R1]].
      * exact Hl.
      * intros d. change (input_source (SetModelPath args p)) with (input_source args).
        rewrite Hsrc. apply Hall.
      * rewrite E1.
        destruct (IH (fun q Hq => H q (or_intror Hq)) (SetModelPath args p) s1)
          as [a [s' [E R]]].
        -- exact Hsrc.
        -- exists a, s'. split; [exact E|]. rewrite R, R1, <- app_assoc. reflexivity.
    + apply IH; [|exact Hsrc]. intros q Hq. apply H. right. exact Hq.
Qed.

(** X13 ([EvaluateModelsInDirectory]): with synthetic input (no image
    path, no CSV path, so [PrintEvaluationResults] is not called), when
    every model file of the directory loads and every session creation,
    binding and evaluation succeeds, the loop returns S_OK and writes one
    summary row per entry that passes the model-file test, in directory
    order; other entries are skipped. *)
Theorem directory_writes_one_row_per_model_file (rt : Runtime) (args : CommandLineArgs)
    (entries : list string) (st : RunState) :
  input_source args = GarbageInput ->
  (forall p, In p entries -> is_model_file p = true ->
     exists m, LoadFromFilePath rt p = Ok m /\
       forall d, CreateSession rt m d = Ok tt /\
                 BindToContext rt m d (input_source args) = Ok tt /\
                 forall i, Evaluate rt m d i = Ok tt) ->
  exists a st', EvaluateModelsInDirectory rt args entries st = (S_OK, a, st') /\
    summary_rows st' = summary_rows st ++ filter is_model_file entries.
Proof.
  intros _ H. apply (directory_all_ok_aux rt (input_source args) entries H args st).
  reflexivity.
Qed.

Lemma directory_writes_one_row_per_model_file_witness :
  exists a st', EvaluateModelsInDirectory rt_all_ok default_args
                  ["a.onnx"; "notes.txt"; "b.pb"]%string empty_run = (S_OK, a, st') /\
    summary_rows st' = summary_rows empty_run ++
                       filter is_model_file ["a.onnx"; "notes.txt"; "b.pb"]%string.
Proof.
  apply directory_writes_one_row_per_model_file; [reflexivity|].
  intros p _ _. exists p. split; [reflexivity|].
  intros d. split; [reflexivity|]. split; [reflexivity|]. intros i. reflexivity.
Defined.

Lemma substring_prefix_app (pat q : string) :
  substring 0 (String.length pat) (String.append pat q) = pat.
Proof.
  induction pat as [|a pat IH]; simpl; [destruct q; reflexivity|]. rewrite IH. reflexivity.
Qed.

Lemma substring_prefix_split (pat : string) :
  forall t, substring 0 (String.length pat) t = pat -> exists q, t = String.append pat q.
Proof.
  induction pat as [|a pat IH]; intros t H.
  - exists t. reflexivity.
  - destruct t as [|b t]; simpl in H; [discriminate H|].
    injection H as -> H. destruct (IH t H) as [q ->]. exists q. reflexivity.
Qed.

Lemma index_cons (pat : string) (b : ascii) (s : string) :
  String.index 0 pat (String b s) =
  if prefix pat (String b s) then Some 0
  else match String.index 0 pat s with Some n => Some (S n) | None => None end.
Proof. reflexivity. Qed.

Lemma contains_iff (pat s : string) :
  contains pat s = true <->
  exists p q, s = String.append p (String.append pat q).
Proof.
  unfold contains. split.
  - induction s as [|b s IH]; intros H.
    + destruct pat; [|discriminate H].
      exists EmptyString, EmptyString. reflexivity.
    + rewrite index_cons in H. destruct (prefix pat (String b s)) eqn:Hp.
      * apply prefix_correct in Hp. destruct (substring_prefix_split pat _ Hp) as [q Hq].
        exists EmptyString, q. exact Hq.
      * destruct (String.index 0 pat s) eqn:Hi; [|discriminate H].
        destruct IH as [p [q ->]]; [reflexivity|].
        exists (String b p), q. reflexivity.
  - intros [p [q ->]]. induction p as [|c p IH].
    + simpl. remember (String.append pat q) as t eqn:E. destruct t as [|b t].
      * destruct pat; [reflexivity|discriminate E].
      * rewrite index_cons.
        assert (Hp : prefix pat (String b t) = true).
        { apply prefix_correct. rewrite E. apply substring_prefix_app. }
        rewrite Hp. reflexivity.
    + simpl String.append. rewrite index_cons.
      destruct (prefix pat (String c (String.append p (String.append pat q))));
        [reflexivity|].
      destruct (String.index 0 pat (String.append p (String.append pat q)));
        [reflexivity|discriminate IH].
Qed.

(** X14 ([EvaluateModelsInDirectory], the test
    [path.find(".onnx") != npos || path.find(".pb") != npos]): an entry is
    treated as a model exactly when its full path contains ".onnx" or ".pb"
    anywhere, not only as the extension (so "notes.pbtxt" or a file inside
    a folder named "x.onnx.d" is loaded as a model). *)
Theorem model_file_test_is_substring (path : string) :
  is_model_file path = true <->
  (exists p q, path = String.append p (String.append ".onnx" q)) \/
  (exists p q, path = String.append p (String.append ".pb" q)).
Proof.
  unfold is_model_file. rewrite orb_true_iff, !contains_iff. reflexivity.
Qed.

End RunnerExtraProofs.

Module InputProofs.
Import InputArgs.

(** X15 ([IsGarbageInput], [IsCSVInput], [IsImageInput] of
    src/CommandLineArgs.h): at most one of the three input kinds holds;
    exactly one holds unless both image paths and CSV data are given, in
    which case none does. *)
Theorem input_kind_exclusive (a : CommandLineArgs) :
  Nat.b2n (IsGarbageInput a) + Nat.b2n (IsCSVInput a) + Nat.b2n (IsImageInput a) =
  if negb (empty_paths (m_imagePaths a)) && negb (String.eqb (m_csvData a) EmptyString)
  then 0 else 1.
Proof.
  unfold IsGarbageInput, IsCSVInput, IsImageInput.
  destruct (empty_paths (m_imagePaths a)), (String.eqb (m_csvData a) EmptyString);
    reflexivity.
Qed.

(** X16 ([UseRGB], [UseBGR], [UseTensor] of src/CommandLineArgs.h): with
    no image-format flag, an image input is read as RGB (not BGR, despite
    the comment in [UseRGB]) and without image paths the input is a
    tensor. *)
Theorem default_image_format (a : CommandLineArgs) :
  m_useRGB a = false -> m_useBGR a = false -> m_useTensor a = false ->
  UseBGR a = false /\
  UseRGB a = negb (empty_paths (m_imagePaths a)) /\
  UseTensor a = empty_paths (m_imagePaths a).
Proof.
  intros Hr Hb Ht. unfold UseTensor, UseRGB, UseBGR. rewrite Hr, Hb, Ht.
  destruct (empty_paths (m_imagePaths a)); repeat split.
Qed.

Lemma default_image_format_witness :
  let a := {| m_useRGB := false; m_useBGR := false; m_useTensor := false;
              m_imagePaths := ["cat.png"%string]; m_csvData := "" |} in
  UseBGR a = false /\ UseRGB a = negb (empty_paths (m_imagePaths a)) /\
  UseTensor a = empty_paths (m_imagePaths a).
Proof.
  intros a. apply default_image_format; reflexivity.
Defined.

End InputProofs.

Module ReportExtraProofs.
Import Output ReportFixtures.

Lemma name_nonempty_len (n : string) : n <> EmptyString -> Nat.eqb (String.length n) 0 = false.
Proof. destruct n; [contradiction|reflexivity]. Qed.

Lemma append_lines_at (fs : Files) (name : string) (lines : list string) :
  append_lines fs name lines name =
  Some (match fs name with None => [] | Some l => l end ++ lines).
Proof. unfold append_lines. rewrite String.eqb_refl. reflexivity. Qed.

Lemma append_lines_elsewhere (fs : Files) (name : string) (lines : list string) (n : string) :
  n <> name -> append_lines fs name lines n = fs n.
Proof.
  intros H. unfold append_lines. destruct (String.eqb_spec n name); [contradiction|reflexivity].
Qed.

Lemma tensor_write_other (np : NumPut) (h : OutputHelper) (r : list double) (i : Z)
    (fs : Files) (n : string) :
  n <> m_csvResult h -> WriteTensorResultToCSV np h r i fs n = fs n.
Proof.
  intros H. unfold WriteTensorResultToCSV.
  destruct (Nat.eqb (String.length (m_csvResult h)) 0); [reflexivity|].
  apply append_lines_elsewhere. exact H.
Qed.

Lemma tensor_writes_other (np : NumPut) (h : OutputHelper) (writes : list (list double * Z)) :
  forall fs n, n <> m_csvResult h ->
  fold_left (fun fs' w => WriteTensorResultToCSV np h (fst w) (snd w) fs') writes fs n = fs n.
Proof.
  induction writes as [|[r i] ws IH]; intros fs n Hn; simpl; [reflexivity|].
  rewrite IH by exact Hn. apply tensor_write_other. exact Hn.
Qed.

Lemma tensor_writes_append (np : NumPut) (h : OutputHelper) (writes : list (list double * Z)) :
  m_csvResult h <> EmptyString ->
  forall fs l, fs (m_csvResult h) = Some l -> l <> [] ->
  exists extra,
    fold_left (fun fs' w => WriteTensorResultToCSV np h (fst w) (snd w) fs') writes fs
      (m_csvResult h) = Some (l ++ extra) /\
    List.length extra = List.length writes.
Proof.
  intros Hname. induction writes as [|[r i] ws IH]; intros fs l Hf Hl; simpl.
  - exists []. rewrite app_nil_r. split; [exact Hf|reflexivity].
  - assert (H1 : exists row, WriteTensorResultToCSV np h r i fs (m_csvResult h)
                             = Some (l ++ [row])).
    { unfold WriteTensorResultToCSV. rewrite name_nonempty_len by exact Hname.
      unfold is_new_file. rewrite append_lines_at, Hf.
      destruct l as [|x l]; [contradiction|]. eexists. reflexivity. }
    destruct H1 as [row Hrow].
    destruct (IH _ (l ++ [row]) Hrow) as [extra [He Hlen]].
    + intros E. apply app_eq_nil in E. destruct E as [_ E]. discriminate E.
    + exists (row :: extra). split.
      * rewrite He, <- app_assoc. reflexivity.
      * simpl. rewrite Hlen. reflexivity.
Qed.

(** X17 ([WriteTensorResultToCSV]): a sequence of result writes to a
    result file that is missing or empty leaves the header of the first
    write ([IterationNumber ,Result[0],...] sized by the first result) as the
    only header, followed by exactly one row per write, whatever the sizes
    of the later results; no other file changes. *)
Theorem result_file_keeps_first_header (np : NumPut) (h : OutputHelper) (fs : Files)
    (r0 : list double) (i0 : Z) (writes : list (list double * Z)) :
  m_csvResult h <> EmptyString ->
  is_new_file fs (m_csvResult h) = true ->
  let fs' := fold_left (fun fs w => WriteTensorResultToCSV np h (fst w) (snd w) fs)
                       ((r0, i0) :: writes) fs in
  (exists lines, fs' (m_csvResult h) = Some lines /\
     List.length lines = 2 + List.length writes /\
     hd EmptyString lines =
       String.concat EmptyString ("IterationNumber ,"%string ::
         map (fun i => ("Result[" ++ put_int np (Z.of_nat i) ++ "],")%string)
             (seq 0 (List.length r0)))) /\
  (forall n, n <> m_csvResult h -> fs' n = fs n).
Proof.
  intros Hname Hnew fs'. split.
  - unfold fs'. simpl.
    set (fs1 := WriteTensorResultToCSV np h r0 i0 fs).
    assert (H1 : exists row, fs1 (m_csvResult h) =
              Some [String.concat EmptyString ("IterationNumber ,"%string ::
                      map (fun i => ("Result[" ++ put_int np (Z.of_nat i) ++ "],")%string)
                          (seq 0 (List.length r0))); row]).
    { unfold fs1, WriteTensorResultToCSV. rewrite name_nonempty_len by exact Hname.
      rewrite Hnew, append_lines_at.
      unfold is_new_file in Hnew.
      destruct (fs (m_csvResult h)) as [[|x l]|]; try discriminate Hnew;
        eexists; reflexivity. }
    destruct H1 as [row Hrow].
    destruct (tensor_writes_append np h writes Hname fs1 _ Hrow) as [extra [He Hlen]].
    + discriminate.
    + eexists. split; [exact He|]. split.
      * simpl. rewrite Hlen. reflexivity.
      * reflexivity.
  - intros n Hn. unfold fs'. apply tensor_writes_other. exact Hn.
Qed.

Lemma result_file_keeps_first_header_witness :
  let fs' := fold_left (fun fs w => WriteTensorResultToCSV test_put base_helper (fst w) (snd w) fs)
                       (([Finite 1; Finite 2], 1%Z) :: [([Finite 3], 2%Z)]) no_files in
  (exists lines, fs' (m_csvResult base_helper) = Some lines /\
     List.length lines = 2 + List.length [([Finite 3], 2%Z)] /\
     hd EmptyString lines =
       String.concat EmptyString ("IterationNumber ,"%string ::
         map (fun i => ("Result[" ++ put_int test_put (Z.of_nat i) ++ "],")%string)
             (seq 0 (List.length [Finite 1; Finite 2])))) /\
  (forall n, n <> m_csvResult base_helper -> fs' n = no_files n).
Proof.
  apply (result_file_keeps_first_header test_put base_helper no_files).
  - discriminate.
  - reflexivity.
Defined.

Lemma resize_length (l : list double) (n : nat) : List.length (resize l n) = n.
Proof.
  unfold resize. rewrite length_app, length_firstn, repeat_length. lia.
Qed.

Lemma resize_nth (l : list double) (n i : nat) :
  i < n -> nth i (resize l n) (Finite 0%Q) = nth i l (Finite 0%Q).
Proof.
  intros Hi. unfold resize.
  destruct (Nat.lt_ge_cases i (List.length l)) as [Hl|Hl].
  - rewrite app_nth1 by (rewrite length_firstn; lia).
    rewrite nth_firstn. destruct (Nat.ltb_spec i n); [reflexivity|lia].
  - rewrite app_nth2 by (rewrite length_firstn; lia).
    rewrite nth_repeat. rewrite nth_overflow by exact Hl. reflexivity.
Qed.

Lemma iteration_lengths_resized (h : OutputHelper) (l : list double) :
  per_iteration_lengths (with_clockLoadTimes h l) = per_iteration_lengths h.
Proof. destruct h; reflexivity. Qed.

Lemma lengths_cover (n : nat) (lens : list nat) :
  Forall (fun len => n <= len) lens -> forallb (fun len => Nat.leb n len) lens = true.
Proof.
  intros H. apply forallb_forall. intros len Hin.
  apply Nat.leb_le. exact (proj1 (Forall_forall _ _) H len Hin).
Qed.

(** X18 ([WritePerformanceDataToCSVPerIteration]): with a per-iteration
    file name set and every vector the row loop indexes ([m_Result],
    [m_Hash], the memory vectors, the bind and evaluate times) holding at
    least [n] entries, one call resizes [m_clockLoadTimes] to the iteration
    count (entries below it kept, missing ones 0.0), appends the header if
    the file is missing or empty and then exactly one row per iteration,
    and changes no other file. *)
Theorem per_iteration_write_shape (np : NumPut) (h : OutputHelper) (n : nat)
    (modelName imgName : string) (fs : Files) :
  m_csvFileNamePerIteration h <> EmptyString ->
  Forall (fun len => n <= len)
    [List.length (m_Result h); List.length (m_Hash h); List.length (m_CPUWorkingDiff h);
     List.length (m_CPUWorkingStart h); List.length (m_GPUSharedDiff h);
     List.length (m_GPUSharedStart h); List.length (m_GPUDedicatedDiff h);
     List.length (m_clockBindTimes h); List.length (m_clockEvalTimes h)] ->
  exists h' fs',
  WritePerformanceDataToCSVPerIteration np h n modelName imgName fs = Some (h', fs') /\
  List.length (m_clockLoadTimes h') = n /\
  (forall i, i < n -> nth i (m_clockLoadTimes h') (Finite 0%Q)
                      = nth i (m_clockLoadTimes h) (Finite 0%Q)) /\
  (exists rows, List.length rows = n /\
     fs' (m_csvFileNamePerIteration h) =
       Some (match fs (m_csvFileNamePerIteration h) with None => [] | Some l => l end ++
             (if is_new_file fs (m_csvFileNamePerIteration h)
              then [per_iteration_header] else []) ++ rows)) /\
  (forall k, k <> m_csvFileNamePerIteration h -> fs' k = fs k).
Proof.
  intros Hname Hlen. unfold WritePerformanceDataToCSVPerIteration.
  rewrite name_nonempty_len by exact Hname. cbn beta iota zeta.
  rewrite iteration_lengths_resized.
  change (per_iteration_lengths h) with
    [List.length (m_Result h); List.length (m_Hash h); List.length (m_CPUWorkingDiff h);
     List.length (m_CPUWorkingStart h); List.length (m_GPUSharedDiff h);
     List.length (m_GPUSharedStart h); List.length (m_GPUDedicatedDiff h);
     List.length (m_clockBindTimes h); List.length (m_clockEvalTimes h)].
  rewrite (lengths_cover n _ Hlen).
  do 2 eexists. split; [reflexivity|].
  split; [apply resize_length|]. split; [intros i Hi; apply resize_nth; exact Hi|].
  split.
  - eexists. split; [|rewrite append_lines_at; reflexivity].
    rewrite length_map, length_seq. reflexivity.
  - intros k Hk. apply append_lines_elsewhere. exact Hk.
Qed.

Lemma per_iteration_write_shape_witness :
  exists h' fs',
  WritePerformanceDataToCSVPerIteration test_put iter_helper 2 "m.onnx"%string "cat.png"%string
    no_files = Some (h', fs') /\
  List.length (m_clockLoadTimes h') = 2 /\
  (forall i, i < 2 -> nth i (m_clockLoadTimes h') (Finite 0%Q)
                      = nth i (m_clockLoadTimes iter_helper) (Finite 0%Q)) /\
  (exists rows, List.length rows = 2 /\
     fs' (m_csvFileNamePerIteration iter_helper) =
       Some (match no_files (m_csvFileNamePerIteration iter_helper) with
             | None => [] | Some l => l end ++
             (if is_new_file no_files (m_csvFileNamePerIteration iter_helper)
              then [per_iteration_header] else []) ++ rows)) /\
  (forall k, k <> m_csvFileNamePerIteration iter_helper -> fs' k = no_files k).
Proof.
  apply (per_iteration_write_shape test_put iter_helper 2 "m.onnx"%string "cat.png"%string
           no_files).
  - discriminate.
  - repeat constructor.
Defined.

End ReportExtraProofs.

Module MainProofs.
Import Runner RunnerMain Fixtures RunFixtures.

Lemma eval_iterations_code (rt : Runtime) (m : string) (d : LearningModelDeviceKind) :
  (forall i, match Evaluate rt m d i with Throw c => (c <= 0)%Z | Ok _ => True end) ->
  forall fuel i st c st', eval_iterations rt m d fuel i st = (Some c, st') -> (c <= 0)%Z.
Proof.
  intros He. induction fuel as [|f IH]; intros i st c st' H; simpl in H; [discriminate H|].
  specialize (He i). destruct (Evaluate rt m d i) as [u|c'].
  - eapply IH. exact H.
  - injection H as <- _. exact He.
Qed.

Lemma EvaluateModel_code (rt : Runtime) (mo : option string) (args : CommandLineArgs)
    (d : LearningModelDeviceKind) (st : RunState) :
  codes_nonpositive rt -> (fst (EvaluateModel rt mo args d st) <= 0)%Z.
Proof.
  intros [Hs [Hb He]]. unfold EvaluateModel.
  destruct mo as [m|]; [|unfold E_INVALIDARG; simpl; lia].
  specialize (Hs m d). destruct (CreateSession rt m d); [|exact Hs].
  specialize (Hb m d (input_source args)).
  destruct (BindToContext rt m d (input_source args)); [|exact Hb].
  destruct (m_perfCapture args).
  - destruct (eval_iterations rt m d (m_numIterations args) 0 st) as [[c|] st'] eqn:E.
    + exact (eval_iterations_code rt m d (He m d) _ _ _ _ _ E).
    + unfold S_OK. simpl. lia.
  - specialize (He m d 0). destruct (Evaluate rt m d 0); [unfold S_OK; simpl; lia|exact He].
Qed.

Lemma failed_nonpos (h : HRESULT) : (h <= 0)%Z -> FAILED h = negb (Z.eqb h S_OK).
Proof.
  intros H. unfold FAILED, S_OK.
  destruct (Z.ltb_spec h 0), (Z.eqb_spec h 0); simpl; lia.
Qed.

(** X19 ([main] and [EvaluateModelsInDirectory]): when a model path is
    given and the platform only throws failure codes, [main] does for that
    model exactly what one iteration of the directory loop does for a
    model file (the [FAILED] test and the [!= S_OK] test agree), after the
    hardware information is printed: same calls, same console, same summary
    row under the model path, and the loop body's error or S_OK as exit
    code. *)
Theorem main_single_model_is_directory_body (rt : Runtime) (args : CommandLineArgs)
    (folderPath : string) (entries : list string) (st : RunState) :
  m_modelPath args <> EmptyString ->
  codes_nonpositive rt ->
  main rt args folderPath entries st =
  match process_model rt args (m_modelPath args) (PrintHardwareInfo st) with
  | (None, st') => (S_OK, st')
  | (Some h, st') => (h, st')
  end.
Proof.
  intros Hpath Hcodes. unfold main, process_model.
  destruct (String.eqb_spec (m_modelPath args) EmptyString) as [E|_]; [contradiction|].
  cbn [negb].
  destruct (LoadModelHelper rt args (PrintHardwareInfo st)) as [[m|c] st1]; [|reflexivity].
  assert (Hstep : forall d s,
            FAILED (fst (EvaluateModel rt (Some m) args d s))
            = negb (Z.eqb (fst (EvaluateModel rt (Some m) args d s)) S_OK)).
  { intros d s. apply failed_nonpos. apply EvaluateModel_code. exact Hcodes. }
  destruct (m_useCPUandGPU args || UseCPU args).
  - pose proof (Hstep Cpu st1) as F1.
    destruct (EvaluateModel rt (Some m) args Cpu st1) as [h1 st2]. simpl in F1.
    cbn beta iota zeta. rewrite F1.
    destruct (negb (Z.eqb h1 S_OK)); [reflexivity|].
    destruct (m_useCPUandGPU args || UseGPU args).
    + pose proof (Hstep (m_deviceKind args) st2) as F2.
      destruct (EvaluateModel rt (Some m) args (m_deviceKind args) st2) as [h2 st3].
      simpl in F2. cbn beta iota zeta. rewrite F2.
      destruct (negb (Z.eqb h2 S_OK)); reflexivity.
    + reflexivity.
  - cbn beta iota zeta.
    destruct (m_useCPUandGPU args || UseGPU args).
    + pose proof (Hstep (m_deviceKind args) st1) as F2.
      destruct (EvaluateModel rt (Some m) args (m_deviceKind args) st1) as [h2 st3].
      simpl in F2. cbn beta iota zeta. rewrite F2.
      destruct (negb (Z.eqb h2 S_OK)); reflexivity.
    + reflexivity.
Qed.

Lemma main_single_model_is_directory_body_witness :
  main rt_all_ok default_args EmptyString [] empty_run =
  match process_model rt_all_ok default_args (m_modelPath default_args)
          (PrintHardwareInfo empty_run) with
  | (None, st') => (S_OK, st')
  | (Some h, st') => (h, st')
  end.
Proof.
  apply main_single_model_is_directory_body.
  - discriminate.
  - split; [intros m d; exact I|]. split; [intros m d s; exact I|]. intros m d i; exact I.
Defined.

End MainProofs.
